(** * Request lifecycle of the storefront product page

    A shallow embedding of the two route modules of the storefront,
    [app/root.tsx] and [app/routes/products.$handle.tsx]: the root
    loader that negotiates the script flag through the session, the
    catch boundary, and the product route's loader, action and headers
    functions.  Everything the routes import from the platform or from
    modules that are not part of these two files is an interface
    (a type class) whose methods the routes call. *)

From stdpp Require Import base strings list gmap pretty.
From Stdlib Require Import ZArith Ascii.

Local Open Scope string_scope.
Local Open Scope list_scope.

(** ** JavaScript values *)

Module Js.

(** The primitive values that travel through the session and the route
    data.  [session.get] is typed [any]; the loader itself only ever
    stores booleans. *)
Inductive value : Type :=
| undefined
| null
| boolean (b : bool)
| str (s : string).

(** [ToBoolean]: what [x && y] and [!x] test. *)
Definition ToBoolean (v : value) : bool :=
  match v with
  | undefined => false
  | null => false
  | boolean b => b
  | str s => negb (String.eqb s EmptyString)
  end.

(** [x === "lit"] where [x] is [string | null]. *)
Definition strict_eq_string (x : option string) (lit : string) : bool :=
  match x with
  | Some s => String.eqb s lit
  | None => false
  end.

End Js.

(** ** The web platform: search parameters, headers, requests, responses *)

(** A [URLSearchParams] object is an ordered list of name/value pairs;
    names may repeat. *)
Definition URLSearchParams : Type := list (string * string).

Definition URLSearchParams_has (name : string) (p : URLSearchParams) : bool :=
  existsb (fun kv => String.eqb (fst kv) name) p.

(** [get] returns the value of the first pair with that name, or [null]. *)
Fixpoint URLSearchParams_get (name : string) (p : URLSearchParams) : option string :=
  match p with
  | [] => None
  | (k, v) :: rest =>
      if String.eqb k name then Some v else URLSearchParams_get name rest
  end.

(** Header names are compared without regard to ASCII case. *)
Definition ascii_lower (c : ascii) : ascii :=
  let n := N_of_ascii c in
  if ((65 <=? n) && (n <=? 90))%N then ascii_of_N (n + 32) else c.

Fixpoint lowercase (s : string) : string :=
  match s with
  | EmptyString => EmptyString
  | String c rest => String (ascii_lower c) (lowercase rest)
  end.

Definition Headers : Type := list (string * string).

Definition header_values (name : string) (h : Headers) : list string :=
  map snd (List.filter (fun kv => String.eqb (lowercase (fst kv)) (lowercase name)) h).

Fixpoint join_comma (vs : list string) : string :=
  match vs with
  | [] => EmptyString
  | [v] => v
  | v :: rest => v +:+ ", " +:+ join_comma rest
  end.

(** [Headers.get]: [null] when no header has that name, otherwise the
    values under that name joined with a comma and a space. *)
Definition Headers_get (name : string) (h : Headers) : option string :=
  match header_values name h with
  | [] => None
  | vs => Some (join_comma vs)
  end.

Definition Headers_has (name : string) (h : Headers) : bool :=
  match header_values name h with
  | [] => false
  | _ => true
  end.

Record Request : Type := mkRequest {
  req_url : string;
  req_headers : Headers;
  req_text : string
}.

Record Response (B : Type) : Type := mkResponse {
  res_status : Z;
  res_headers : Headers;
  res_body : option B
}.

Arguments mkResponse {B} _ _ _.
Arguments res_status {B} _.
Arguments res_headers {B} _.
Arguments res_body {B} _.

(** Turning the text of a URL or of a form body into search parameters
    is the platform's work: [new URL(u).searchParams] and
    [new URLSearchParams(body)]. *)
Class WebPlatform : Type := {
  URL_searchParams : string -> URLSearchParams;
  URLSearchParams_new : string -> URLSearchParams
}.

(** ** Remix helpers *)

(** [json(data, { headers })]: a 200 response carrying [data]; the
    content type is added unless the caller gave one. *)
Definition json {B : Type} (data : B) (init_headers : Headers) : Response B :=
  let headers :=
    if Headers_has "Content-Type" init_headers then init_headers
    else init_headers ++ [("Content-Type", "application/json; charset=utf-8")] in
  mkResponse 200 headers (Some data).

(** [redirect(url)]: a 302 response whose [Location] is [url]. *)
Definition redirect {B : Type} (url : string) : Response B :=
  mkResponse 302 [("Location", url)] None.

(** The target of a redirect response, if it is one. *)
Definition redirect_target {B : Type} (r : Response B) : option string :=
  if ((300 <=? res_status r) && (res_status r <? 400))%Z
  then Headers_get "Location" (res_headers r)
  else None.

(** ** Sessions *)

(** A session is a bag of named values.  [session.get] of a name that
    was never set is [undefined]; [session.set] overwrites. *)
Abbreviation Session := (gmap string Js.value).

Definition Session_get (name : string) (session : Session) : Js.value :=
  default Js.undefined (session !! name).

Definition Session_set (name : string) (v : Js.value) (session : Session) : Session :=
  <[name := v]> session.

(** [getSession] and [commitSession] come from [./session.server], the
    cookie session storage of the application: the first decodes the
    [Cookie] header (or its absence) into a session, the second encodes a
    session as a [Set-Cookie] value.  Neither fails. *)
Class SessionStorage : Type := {
  getSession : option string -> Session;
  commitSession : Session -> string
}.

(** The round-trip law of the session codec for the [js] preference: a
    session that records a boolean under [js] decodes, after being
    committed, to a session that records the same boolean.  The cookie
    the browser sends back is the one [commitSession] issued. *)
Definition js_round_trip (storage : SessionStorage) : Prop :=
  forall (session : Session) (b : bool),
    session !! "js" = Some (Js.boolean b) ->
    getSession (Some (commitSession session)) !! "js" = Some (Js.boolean b).

(** ** Promises and the catalog *)

(** The one failure of the catalog client: transport or remote failure. *)
Inductive error : Type :=
| CatalogUnavailable.

Inductive settled (A : Type) : Type :=
| Fulfilled (a : A)
| Rejected (e : error).

Arguments Fulfilled {A} _.
Arguments Rejected {A} _.

(** The remote operations a handler has issued, in the order issued. *)
Inductive call : Type :=
| CallProductByHandle (handle : string)
| CallProducts
| CallCreateCheckout (variantId : string).

(** A promise is modelled by how it settles together with the remote
    operations that were issued to get there. *)
Definition Promise (A : Type) : Type := settled A * list call.

Definition resolve {A : Type} (a : A) : Promise A := (Fulfilled a, []).

(** [await p] followed by the rest of the async function: a rejection
    of [p] is thrown out of the function, which then does nothing more. *)
Definition await {A B : Type} (p : Promise A) (k : A -> Promise B) : Promise B :=
  match p with
  | (Fulfilled a, issued) =>
      let '(r, later) := k a in (r, issued ++ later)
  | (Rejected e, issued) => (Rejected e, issued)
  end.

Notation "'let*' x ':=' 'await' p 'in' k" := (await p (fun x => k))
  (at level 10, x pattern, p at level 100, k at level 200).

(** [Promise.all([p, q])]: both operations have been issued before the
    join; the join is fulfilled with both results when both are, and is
    rejected as soon as one of them is.  With a single kind of error the
    rejection is the same whichever of the two settles first. *)
Definition Promise_all2 {A B : Type} (p : Promise A) (q : Promise B) : Promise (A * B) :=
  let '(rp, issued_p) := p in
  let '(rq, issued_q) := q in
  (match rp, rq with
   | Fulfilled a, Fulfilled b => Fulfilled (a, b)
   | Rejected e, _ => Rejected e
   | _, Rejected e => Rejected e
   end, issued_p ++ issued_q).

(** The shapes of the catalog's answers, as far as the route reads them. *)
Record Edge (A : Type) : Type := mkEdge { node : A }.
Arguments mkEdge {A} _.
Arguments node {A} _.

Record Connection (A : Type) : Type := mkConnection { edges : list (Edge A) }.
Arguments mkConnection {A} _.
Arguments edges {A} _.

Record Image : Type := mkImage {
  transformedSrc : string;
  altText : option string
}.

Record Variant : Type := mkVariant { id : string }.

Record Money : Type := mkMoney { amount : string }.

Record PriceRange : Type := mkPriceRange { minVariantPrice : Money }.

Record Product : Type := mkProduct {
  handle : string;
  title : string;
  description : string;
  tags : list string;
  updatedAt : string;
  images : Connection Image;
  variants : Connection Variant;
  priceRange : PriceRange
}.

Record ProductByHandleQuery : Type := mkProductByHandleQuery {
  productByHandle : option Product
}.

Record ProductsQuery : Type := mkProductsQuery {
  products : Connection Product
}.

Record Checkout : Type := mkCheckout { webUrl : string }.

Record CheckoutCreatePayload : Type := mkCheckoutCreatePayload {
  checkout : option Checkout
}.

Record CreateCheckoutMutation : Type := mkCreateCheckoutMutation {
  checkoutCreate : option CheckoutCreatePayload
}.

(** [getSdk(storefront)]: how each remote operation settles. *)
Class Sdk : Type := {
  ProductByHandle_settles : string -> settled ProductByHandleQuery;
  Products_settles : settled ProductsQuery;
  CreateCheckout_settles : string -> settled CreateCheckoutMutation
}.

(** Calling an operation issues it and gives the promise of its answer. *)
Definition sdk_ProductByHandle `{Sdk} (h : string) : Promise ProductByHandleQuery :=
  (ProductByHandle_settles h, [CallProductByHandle h]).

Definition sdk_Products `{Sdk} : Promise ProductsQuery :=
  (Products_settles, [CallProducts]).

Definition sdk_CreateCheckout `{Sdk} (variantId : string) : Promise CreateCheckoutMutation :=
  (CreateCheckout_settles variantId, [CallCreateCheckout variantId]).

(** ** [app/root.tsx] *)

Module Root.

Record RouteData : Type := mkRouteData { js : Js.value }.

(** The root loader.  The session object is mutated in place by
    [session.set]; here the session is threaded through the branch.  The
    loader awaits nothing but the session storage, which does not fail,
    so the async function is given by the response it resolves to. *)
Definition loader `{WebPlatform} `{SessionStorage} (request : Request) : Response RouteData :=
  let session := getSession (Headers_get "Cookie" (req_headers request)) in
  let searchParams := URL_searchParams (req_url request) in
  let '(enableJS, session) :=
    if URLSearchParams_has "js" searchParams then
      let js := Js.strict_eq_string (URLSearchParams_get "js" searchParams) "1" in
      (Js.boolean js, Session_set "js" (Js.boolean js) session)
    else
      (Session_get "js" session, session) in
  json {| js := enableJS |} [("Set-Cookie", commitSession session)].

(** [Document] attaches the scripts under [enableJS && <Scripts />]. *)
Definition Document_attaches_Scripts (enableJS : Js.value) : bool :=
  Js.ToBoolean enableJS.

(** [App] hands [data.js] to [Document]. *)
Definition App_attaches_Scripts (data : RouteData) : bool :=
  Document_attaches_Scripts (js data).

Record Caught : Type := mkCaught {
  status : Z;
  statusText : string
}.

(** What a component does when rendered: it returns markup (here the
    text of the heading inside [Document]) or throws an [Error]. *)
Inductive rendering : Type :=
| Rendered (heading : string)
| Thrown (message : string).

Definition CatchBoundary (caught : Caught) : rendering :=
  if (status caught =? 401)%Z then
    Rendered (pretty (status caught) +:+ " " +:+ statusText caught)
  else if (status caught =? 404)%Z then
    Rendered (pretty (status caught) +:+ " " +:+ statusText caught)
  else
    Thrown ("Unexpected caught response with status: " +:+ pretty (status caught)).

End Root.

(** ** [app/routes/products.$handle.tsx] *)

Module ProductsHandle.

Record RouteData : Type := mkRouteData {
  product : option Product;
  relatedProducts : list (Edge Product)
}.

Record Params : Type := mkParams { params_handle : string }.

Definition loader `{Sdk} (params : Params) : Promise (Response RouteData) :=
  let* (q1, q2) := await
    Promise_all2 (sdk_ProductByHandle (params_handle params)) sdk_Products in
  let relatedProducts :=
    take 4 (filter (fun item => handle (node item) <> params_handle params)
                   (edges (products q2))) in
  resolve (json {| product := productByHandle q1;
                   relatedProducts := relatedProducts |}
                [("Cache-Control",
                  "max-age=60, s-maxage=3600, stale-while-revalidate=604800")]).

Definition action `{WebPlatform} `{Sdk} (request : Request) : Promise (Response unit) :=
  let body := req_text request in
  let formData := URLSearchParams_new body in
  match URLSearchParams_get "variantId" formData with
  | None => resolve (redirect (req_url request))
  | Some variantId =>
      if String.eqb variantId EmptyString then
        resolve (redirect (req_url request))
      else
        let* res := await sdk_CreateCheckout variantId in
        match checkoutCreate res ≫= checkout with
        | None => resolve (redirect (req_url request))
        | Some created => resolve (redirect (webUrl created))
        end
  end.

Definition headers (loaderHeaders : Headers) : Headers :=
  [("Cache-Control", default EmptyString (Headers_get "Cache-Control" loaderHeaders))].

(** The related products in the words of the design: walk the catalog's
    list in its order, leave out every entry whose handle is the
    requested one, and stop once [n] entries have been kept. *)
Fixpoint first_remaining (requested : string) (l : list (Edge Product)) (n : nat)
  : list (Edge Product) :=
  match l with
  | [] => []
  | item :: rest =>
      match n with
      | O => []
      | S n' =>
          if String.eqb (handle (node item)) requested
          then first_remaining requested rest n
          else item :: first_remaining requested rest n'
      end
  end.

End ProductsHandle.

(** ** Concrete collaborators for running the routes *)

Module Sample.

(** A plain reader of [name=value&name=value] text (no percent
    decoding), enough to run the routes on ASCII requests. *)
Fixpoint cut (sep : ascii) (s : string) : string * option string :=
  match s with
  | EmptyString => (EmptyString, None)
  | String c rest =>
      if Ascii.eqb c sep then (EmptyString, Some rest)
      else let '(before, after) := cut sep rest in (String c before, after)
  end.

Fixpoint pieces (sep : ascii) (s : string) : list string :=
  match s with
  | EmptyString => [EmptyString]
  | String c rest =>
      if Ascii.eqb c sep then EmptyString :: pieces sep rest
      else match pieces sep rest with
           | [] => [String c EmptyString]
           | w :: ws => String c w :: ws
           end
  end.

Definition pairs_of (text : string) : URLSearchParams :=
  map (fun piece => let '(k, v) := cut "=" piece in (k, default EmptyString v))
      (List.filter (fun piece => negb (String.eqb piece EmptyString)) (pieces "&" text)).

Definition query_of (url : string) : string :=
  match cut "?" url with
  | (_, Some q) => fst (cut "#" q)
  | (_, None) => EmptyString
  end.

Definition platform : WebPlatform :=
  {| URL_searchParams := fun url => pairs_of (query_of url);
     URLSearchParams_new := pairs_of |}.

(** Modelled from the spec: the session codec of [./session.server],
    which is not among the two route files.  Decoding never fails: a
    missing or unreadable cookie is the empty session.  Encoding is a
    function of the session's contents.  Only the [js] preference is
    carried. *)
Definition decode (cookie : option string) : Session :=
  match cookie with
  | Some c =>
      if String.eqb c "__session=js:1" then {[ "js" := Js.boolean true ]}
      else if String.eqb c "__session=js:0" then {[ "js" := Js.boolean false ]}
      else ∅
  | None => ∅
  end.

Definition encode (session : Session) : string :=
  match session !! "js" with
  | Some (Js.boolean true) => "__session=js:1"
  | Some (Js.boolean false) => "__session=js:0"
  | _ => "__session="
  end.

Definition storage : SessionStorage :=
  {| getSession := decode; commitSession := encode |}.

(** A catalog given by the list of its products; [created] says which
    variant ids the remote service makes a checkout for. *)
Definition item (h : string) : Product :=
  {| handle := h; title := h; description := EmptyString; tags := [];
     updatedAt := "2021-01-01T00:00:00Z";
     images := mkConnection [mkEdge (mkImage ("/img/" +:+ h) None)];
     variants := mkConnection [mkEdge (mkVariant ("variant-" +:+ h))];
     priceRange := mkPriceRange (mkMoney "10.0") |}.

Definition find_product (h : string) (catalog : list Product) : option Product :=
  List.find (fun p => String.eqb (handle p) h) catalog.

Definition catalog_sdk (catalog : list Product) : Sdk :=
  {| ProductByHandle_settles := fun h =>
       Fulfilled (mkProductByHandleQuery (find_product h catalog));
     Products_settles :=
       Fulfilled (mkProductsQuery (mkConnection (map mkEdge catalog)));
     CreateCheckout_settles := fun variantId =>
       Fulfilled (mkCreateCheckoutMutation
         (Some (mkCheckoutCreatePayload
           (if existsb (fun p => String.eqb ("variant-" +:+ handle p) variantId) catalog
            then Some (mkCheckout ("https://checkout.example/" +:+ variantId))
            else None)))) |}.

(** The same catalog with its transport down for some operations. *)
Definition failing_list (sdk : Sdk) : Sdk :=
  {| ProductByHandle_settles := @ProductByHandle_settles sdk;
     Products_settles := Rejected CatalogUnavailable;
     CreateCheckout_settles := @CreateCheckout_settles sdk |}.

Definition failing_product (sdk : Sdk) : Sdk :=
  {| ProductByHandle_settles := fun _ => Rejected CatalogUnavailable;
     Products_settles := @Products_settles sdk;
     CreateCheckout_settles := @CreateCheckout_settles sdk |}.

Definition failing_checkout (sdk : Sdk) : Sdk :=
  {| ProductByHandle_settles := @ProductByHandle_settles sdk;
     Products_settles := @Products_settles sdk;
     CreateCheckout_settles := fun _ => Rejected CatalogUnavailable |}.

Definition shop : list Product :=
  map item ["classic-tee"; "hoodie"; "cap"; "socks"; "mug"; "scarf"].

Definition get_request (url : string) (cookie : option string) : Request :=
  {| req_url := url;
     req_headers := match cookie with
                    | Some c => [("Cookie", c)]
                    | None => []
                    end;
     req_text := EmptyString |}.

Definition post_request (url body : string) : Request :=
  {| req_url := url;
     req_headers := [("Content-Type", "application/x-www-form-urlencoded")];
     req_text := body |}.

(** The requests and catalogs the routes are run on below. *)
Definition shop_sdk : Sdk := catalog_sdk shop.

Definition list_down : Sdk := failing_list shop_sdk.

Definition checkout_down : Sdk := failing_checkout shop_sdk.

Definition visit_js_on : Request :=
  get_request "/products/cap?js=1" (Some "__session=js:0").

Definition visit_js_off : Request :=
  get_request "/products/cap?js=0" (Some "__session=js:1").

Definition first_visit : Request := get_request "/products/cap" None.

Definition buy_cap : Request :=
  post_request "/products/cap" "variantId=variant-cap".

Definition buy_nothing : Request :=
  post_request "/products/cap" "variantId=".

Definition classic_tee : ProductsHandle.Params :=
  ProductsHandle.mkParams "classic-tee".

Definition ghost_product : ProductsHandle.Params :=
  ProductsHandle.mkParams "ghost-product".

End Sample.

(** ** Rendered markup *)

Module React.

(** A prop of an element: a string, or a boolean such as [disabled]. *)
Inductive prop : Type :=
| text_prop (name value : string)
| bool_prop (name : string) (value : bool).

Local Set Warnings "-register-all".

(** What a component renders.  Children that React leaves out
    ([undefined], [null], [false]) are not in the list of children. *)
Inductive element : Type :=
| Text (s : string)
| Element (tag : string) (key : option string) (props : list prop)
          (children : list element).

Definition el (tag : string) (props : list prop) (children : list element) : element :=
  Element tag None props children.

(** Rendering a component returns an element or throws. *)
Inductive exception : Type :=
| TypeError
| Raised (message : string).

Inductive outcome (A : Type) : Type :=
| Returns (a : A)
| Throws (e : exception).

Arguments Returns {A} _.
Arguments Throws {A} _.

#[global] Instance outcome_ret : MRet outcome := fun A a => Returns a.

#[global] Instance outcome_bind : MBind outcome := fun A B k m =>
  match m with
  | Returns a => k a
  | Throws e => Throws e
  end.

(** [edges[0].node]: reading [node] of [undefined] is a [TypeError]. *)
Definition first_node {A : Type} (l : list (Edge A)) : outcome A :=
  match l with
  | [] => Throws TypeError
  | e :: _ => Returns (node e)
  end.

(** [array.map(f)] where [f] may throw: the first throw ends the map. *)
Fixpoint map_outcome {A B : Type} (f : A -> outcome B) (l : list A) : outcome (list B) :=
  match l with
  | [] => Returns []
  | a :: rest =>
      b ← f a;
      bs ← map_outcome f rest;
      Returns (b :: bs)
  end.

(** The element itself and every element under it, in document order. *)
Fixpoint elements (e : element) : list element :=
  match e with
  | Text _ => []
  | Element _ _ _ children => e :: flat_map elements children
  end.

Definition tag_of (e : element) : option string :=
  match e with
  | Text _ => None
  | Element tag _ _ _ => Some tag
  end.

Definition key_of (e : element) : option string :=
  match e with
  | Text _ => None
  | Element _ key _ _ => key
  end.

Definition has_tag (tag : string) (e : element) : bool :=
  match tag_of e with
  | Some t => String.eqb t tag
  | None => false
  end.

Fixpoint text_of (name : string) (props : list prop) : option string :=
  match props with
  | [] => None
  | text_prop n v :: rest => if String.eqb n name then Some v else text_of name rest
  | bool_prop _ _ :: rest => text_of name rest
  end.

Fixpoint flag_of (name : string) (props : list prop) : option bool :=
  match props with
  | [] => None
  | bool_prop n b :: rest => if String.eqb n name then Some b else flag_of name rest
  | text_prop _ _ :: rest => flag_of name rest
  end.

Definition props_of (e : element) : list prop :=
  match e with
  | Text _ => []
  | Element _ _ props _ => props
  end.

(** The elements with a given tag, in document order. *)
Definition tagged (tag : string) (e : element) : list element :=
  List.filter (has_tag tag) (elements e).

(** Whether an element with a given tag is rendered at all. *)
Definition renders (tag : string) (e : element) : bool :=
  existsb (has_tag tag) (elements e).

(** The keys given to elements, in document order. *)
Definition keys (e : element) : list string :=
  omap key_of (elements e).

(** Whether each element with a given tag carries a boolean prop. *)
Definition flags (tag name : string) (e : element) : list bool :=
  omap (fun f => flag_of name (props_of f)) (tagged tag e).

(** Where the [<Link>]s of a page lead. *)
Definition link_targets (e : element) : list string :=
  omap (fun l => text_of "to" (props_of l)) (tagged "Link" e).

(** The name and value of every [<input>] of a page: what submitting
    its form sends. *)
Definition input_fields (e : element) : list (string * string) :=
  omap (fun i => name ← text_of "name" (props_of i);
                 value ← text_of "value" (props_of i);
                 Some (name, value))
       (tagged "input" e).

End React.

(** ** [app/root.tsx]: the components *)

(** [process.env]. *)
Class Environment : Type := {
  NODE_ENV : option string
}.

Module RootView.

Import React.

Definition Document `{Environment} (children : list element) (enableJS : Js.value)
  : element :=
  el "html" [text_prop "lang" "en"]
    [ el "head" []
        [ el "meta" [text_prop "charSet" "utf-8"] [];
          el "link" [text_prop "rel" "icon"; text_prop "href" "/favicon.png";
                     text_prop "type" "image/png"] [];
          el "meta" [text_prop "name" "viewport";
                     text_prop "content" "width=device-width, initial-scale=1.0"] [];
          el "Meta" [] [];
          el "Links" [] [] ];
      el "body" []
        (children
         ++ (if Js.ToBoolean enableJS then [el "Scripts" [] []] else [])
         ++ (if Js.strict_eq_string NODE_ENV "development"
             then [el "LiveReload" [] []] else [])) ].

(** [useLoaderData] gives the loader's data. *)
Definition App `{Environment} (data : Root.RouteData) : element :=
  Document [el "Header" [] []; el "Outlet" [] []; el "Footer" [] []] (Root.js data).

(** [Document] without the [enableJS] prop: the prop is [undefined]. *)
Definition ErrorBoundary `{Environment} (error_message : string) : element :=
  Document
    [ el "h1" [] [Text "App Error"];
      el "pre" [] [Text error_message];
      el "p" []
        [Text "Replace this UI with what you want users to see when your app throws uncaught errors."] ]
    Js.undefined.

Definition CatchBoundary `{Environment} (caught : Root.Caught) : outcome element :=
  if (Root.status caught =? 401)%Z then
    Returns (Document
      [el "h1" [] [Text (pretty (Root.status caught)); Text " ";
                   Text (Root.statusText caught)]]
      Js.undefined)
  else if (Root.status caught =? 404)%Z then
    Returns (Document
      [el "h1" [] [Text (pretty (Root.status caught)); Text " ";
                   Text (Root.statusText caught)]]
      Js.undefined)
  else
    Throws (Raised ("Unexpected caught response with status: "
                    +:+ pretty (Root.status caught))).

End RootView.

(** ** [app/routes/products.$handle.tsx]: the page *)

(** The two formatting helpers the page calls, each of which may throw:
    [format(parseISO(s), "dd MMM yyyy")] of [date-fns] and
    [formatMoney(Number(s))] of [~/lib/format-money]. *)
Class Formatting : Type := {
  format_dd_MMM_yyyy : string -> React.outcome string;
  formatMoney_Number : string -> React.outcome string
}.

Module ProductView.

Import React.

Record MetaTags : Type := mkMetaTags { meta_title : string }.

Definition meta (data : ProductsHandle.RouteData) : MetaTags :=
  match ProductsHandle.product data with
  | None => {| meta_title := "Product not found" |}
  | Some product => {| meta_title := title product |}
  end.

(** The markup of one card of the related products, once its image and
    its formatted price are at hand. *)
Definition card_markup (product : Product) (image : Image) (price : string) : element :=
    (Element "div" (Some (handle product)) [text_prop "className" "relative group"]
       [ el "div"
           [text_prop "className"
              "overflow-hidden bg-gray-100 rounded-lg aspect-w-4 aspect-h-3"]
           [ el "img"
               [text_prop "src" (transformedSrc image);
                text_prop "className"
                  "object-cover object-center group-hover:opacity-75";
                text_prop "alt" (default EmptyString (altText image))] [] ];
         el "div"
           [text_prop "className"
              "flex items-center justify-between mt-4 space-x-8 text-base font-medium text-gray-900"]
           [ el "h3" []
               [ el "Link" [text_prop "to" ("/products/" +:+ handle product)]
                   [ el "span" [text_prop "aria-hidden" "true";
                                text_prop "className" "absolute inset-0"] [];
                     Text (title product) ] ];
             el "p" [] [Text price] ];
         el "p" [text_prop "className" "mt-1 text-sm text-gray-500"]
           [Text (join_comma (tags product))] ]).

(** The callback of [relatedProducts.map]: the first image is read,
    then the price is formatted, then the card is built. *)
Definition related_card `{Formatting} (relatedProduct : Edge Product) : outcome element :=
  let product := node relatedProduct in
  image ← first_node (edges (images product));
  price ← formatMoney_Number (amount (minVariantPrice (priceRange product)));
  Returns (card_markup product image price).

Definition spinner : element :=
  el "svg"
    [text_prop "className" "w-5 h-5 mr-3 -ml-1 text-white animate-spin";
     text_prop "xmlns" "http://www.w3.org/2000/svg";
     text_prop "fill" "none";
     text_prop "viewBox" "0 0 24 24"]
    [ el "circle"
        [text_prop "className" "opacity-25"; text_prop "cx" "12";
         text_prop "cy" "12"; text_prop "r" "10";
         text_prop "stroke" "currentColor"; text_prop "strokeWidth" "4"] [];
      el "path"
        [text_prop "className" "opacity-75"; text_prop "fill" "currentColor";
         text_prop "d"
           "M4 12a8 8 0 018-8V0C5.373 0 0 5.373 0 12h4zm2 5.291A7.962 7.962 0 014 12H0c0 3.042 1.135 5.824 3 7.938l3-2.647z"]
        [] ].

(** The markup of the page of a product, once everything it shows has
    been computed. *)
Definition page_markup {S : Type} (product : Product) (variantId : string)
    (image : Image) (updated pay : string) (cards : list element)
    (pendingForm : option S) : element :=
  el "main"
     [text_prop "className"
        "px-4 mx-auto max-w-7xl pt-14 sm:pt-24 sm:px-6 lg:px-8"]
     [ el "div"
         [text_prop "className"
            "lg:grid lg:grid-cols-7 lg:gap-x-8 xl:gap-x-16"]
         [ el "div" [text_prop "className" "lg:col-span-4"]
             [ el "div"
                 [text_prop "className"
                    "overflow-hidden bg-gray-100 rounded-lg aspect-w-4 aspect-h-3"]
                 [ el "img"
                     [text_prop "src" (transformedSrc image);
                      text_prop "className" "object-cover object-center";
                      text_prop "alt" (default EmptyString (altText image))]
                     [] ] ];
           el "div"
             [text_prop "className"
                "max-w-2xl mx-auto mt-14 sm:mt-16 lg:max-w-none lg:mt-0 lg:col-span-3"]
             [ el "div" [text_prop "className" "flex flex-col-reverse"]
                 [ el "div" []
                     [ el "h1"
                         [text_prop "className"
                            "text-2xl font-extrabold tracking-tight text-gray-900 sm:text-3xl"]
                         [Text (title product)];
                       el "h2"
                         [text_prop "id" "information-heading";
                          text_prop "className" "sr-only"]
                         [Text "Product information"];
                       el "p"
                         [text_prop "className" "mt-2 text-sm text-gray-500"]
                         [ Text (join_comma (tags product));
                           Text " · Updated";
                           Text " ";
                           el "time" [text_prop "dateTime" (updatedAt product)]
                             [Text updated] ] ] ];
               el "p" [text_prop "className" "mt-6 text-gray-500"]
                 [Text (description product)];
               el "div"
                 [text_prop "className"
                    "grid grid-cols-1 mt-10 gap-x-6 gap-y-4 sm:grid-cols-2"]
                 [ el "Form" [text_prop "method" "post"]
                     [ el "fieldset"
                         [bool_prop "disabled"
                            (match pendingForm with
                             | Some _ => true
                             | None => false
                             end)]
                         [ el "input"
                             [text_prop "type" "hidden";
                              text_prop "name" "variantId";
                              text_prop "value" variantId] [];
                           el "button"
                             [text_prop "type" "submit";
                              text_prop "className"
                                "flex items-center justify-center w-full px-8 py-3 text-base font-medium text-white bg-gray-900 border border-transparent rounded-md hover:bg-gray-700 focus:outline-none focus:ring-2 focus:ring-offset-2 focus:ring-offset-gray-50 focus:ring-gray-500"]
                             ((match pendingForm with
                               | Some _ => [spinner]
                               | None => []
                               end)
                              ++ [ el "span" []
                                     [Text "Pay"; Text " "; Text pay] ]) ] ];
                   el "button"
                     [text_prop "type" "button";
                      text_prop "className"
                        "flex items-center justify-center w-full px-8 py-3 text-base font-medium text-gray-900 bg-white border rounded-md shadow-sm hover:bg-gray-50 focus:outline-none focus:ring-2 focus:ring-offset-2 focus:ring-offset-gray-50 focus:ring-gray-500"]
                     [Text "Preview"] ];
               el "div" [text_prop "className" "pt-10 sm:border-t sm:mt-10"]
                 [ el "h3"
                     [text_prop "className" "text-sm font-medium text-gray-900"]
                     [Text "License"];
                   el "p" [text_prop "className" "mt-4 text-sm text-gray-500"]
                     [ Text "For personal and professional use. You cannot resell or redistribute these icons in their original or modified state.";
                       Text " ";
                       el "a"
                         [text_prop "href" "#";
                          text_prop "className"
                            "font-medium text-gray-900 hover:text-gray-700"]
                         [Text "Read full license"] ] ] ] ];
       el "div"
         [text_prop "className"
            "max-w-2xl mx-auto mt-24 lg:mt-32 lg:max-w-none"]
         [ el "div"
             [text_prop "className"
                "flex items-center justify-between space-x-4"]
             [ el "h2"
                 [text_prop "className" "text-lg font-medium text-gray-900"]
                 [Text "Customers also viewed"];
               el "Link"
                 [text_prop "className"
                    "text-sm font-medium text-gray-900 whitespace-nowrap hover:text-gray-700";
                  text_prop "to" "/"]
                 [ Text "View all";
                   el "span" [text_prop "aria-hidden" "true"] [Text " →"] ] ];
           el "div"
             [text_prop "className"
                "grid grid-cols-1 mt-6 gap-x-8 gap-y-8 sm:grid-cols-2 sm:gap-y-10 lg:grid-cols-4"]
             cards ] ].

(** The page component.  [useRouteData] gives the loader's data and
    [usePendingFormSubmit] the submission in flight, if any; the page
    only tests whether there is one.  The order is that of the source:
    the first variant, the first image, the date, the price, the cards. *)
Definition ProductPage `{Formatting} {S : Type}
    (data : ProductsHandle.RouteData) (pendingForm : option S) : outcome element :=
  match ProductsHandle.product data with
  | None => Returns (el "div" [] [Text "Product not found"])
  | Some product =>
      first_variant ← first_node (edges (variants product));
      let variantId := id first_variant in
      image ← first_node (edges (images product));
      updated ← format_dd_MMM_yyyy (updatedAt product);
      pay ← formatMoney_Number (amount (minVariantPrice (priceRange product)));
      cards ← map_outcome related_card (ProductsHandle.relatedProducts data);
      Returns (page_markup product variantId image updated pay cards pendingForm)
  end.

End ProductView.

(** ** Concrete pages *)

Module SamplePages.

Definition production : Environment := {| NODE_ENV := Some "production" |}.

Definition development : Environment := {| NODE_ENV := Some "development" |}.

(** Formatting that keeps the day of the timestamp and prefixes the
    amount with a currency sign. *)
Definition formatting : Formatting :=
  {| format_dd_MMM_yyyy := fun s => React.Returns (String.substring 0 10 s);
     formatMoney_Number := fun s => React.Returns ("$" +:+ s) |}.

(** Formatting whose date helper throws on a timestamp too short to
    hold a day, as the real one does on an unparsable timestamp. *)
Definition checked_dates : Formatting :=
  {| format_dd_MMM_yyyy := fun s =>
       if (String.length s <? 10)%nat
       then React.Throws (React.Raised "Invalid time value")
       else React.Returns (String.substring 0 10 s);
     formatMoney_Number := fun s => React.Returns ("$" +:+ s) |}.

(** Formatting whose date helper rejects every timestamp. *)
Definition no_dates : Formatting :=
  {| format_dd_MMM_yyyy := fun _ => React.Throws (React.Raised "Invalid time value");
     formatMoney_Number := fun s => React.Returns ("$" +:+ s) |}.

Definition without_variants (p : Product) : Product :=
  {| handle := handle p; title := title p; description := description p;
     tags := tags p; updatedAt := updatedAt p; images := images p;
     variants := mkConnection []; priceRange := priceRange p |}.

Definition cap_page : ProductsHandle.RouteData :=
  {| ProductsHandle.product := Some (Sample.item "cap");
     ProductsHandle.relatedProducts :=
       map (fun h => mkEdge (Sample.item h)) ["classic-tee"; "hoodie"; "socks"; "mug"] |}.

Definition cap_without_variants : ProductsHandle.RouteData :=
  {| ProductsHandle.product := Some (without_variants (Sample.item "cap"));
     ProductsHandle.relatedProducts := [] |}.

End SamplePages.

(** ** Running the routes on concrete requests *)

Example get_takes_first_value :
  URLSearchParams_get "js" (Sample.pairs_of "js=0&js=1") = Some "0".
Proof. reflexivity. Qed.

Example header_names_ignore_case :
  Headers_get "Cache-Control" [("cache-control", "no-store")] = Some "no-store".
Proof. reflexivity. Qed.

Example root_loader_js_off :
  @Root.loader Sample.platform Sample.storage
    (Sample.get_request "/products/cap?js=0#top" (Some "__session=js:1"))
  = mkResponse 200
      [("Set-Cookie", "__session=js:0");
       ("Content-Type", "application/json; charset=utf-8")]
      (Some {| Root.js := Js.boolean false |}).
Proof. vm_compute. reflexivity. Qed.

Example root_loader_first_visit :
  @Root.loader Sample.platform Sample.storage
    (Sample.get_request "/products/cap" None)
  = mkResponse 200
      [("Set-Cookie", "__session=");
       ("Content-Type", "application/json; charset=utf-8")]
      (Some {| Root.js := Js.undefined |}).
Proof. vm_compute. reflexivity. Qed.

Example classic_tee_related :
  match fst (@ProductsHandle.loader (Sample.catalog_sdk Sample.shop)
               (ProductsHandle.mkParams "classic-tee")) with
  | Fulfilled response =>
      (fun data => map (fun item => handle (node item))
                       (ProductsHandle.relatedProducts data))
        <$> res_body response
  | Rejected _ => None
  end = Some ["hoodie"; "cap"; "socks"; "mug"].
Proof. vm_compute. reflexivity. Qed.

Example checkout_redirects_away :
  @ProductsHandle.action Sample.platform (Sample.catalog_sdk Sample.shop)
    (Sample.post_request "/products/cap" "variantId=variant-cap")
  = (Fulfilled (redirect "https://checkout.example/variant-cap"),
     [CallCreateCheckout "variant-cap"]).
Proof. vm_compute. reflexivity. Qed.

Example catch_boundary_500 :
  Root.CatchBoundary (Root.mkCaught 500 "Internal Server Error")
  = Root.Thrown "Unexpected caught response with status: 500".
Proof. vm_compute. reflexivity. Qed.

Example catch_boundary_404 :
  Root.CatchBoundary (Root.mkCaught 404 "Not Found") = Root.Rendered "404 Not Found".
Proof. vm_compute. reflexivity. Qed.

Example root_loader_repeated_parameter :
  res_body (@Root.loader Sample.platform Sample.storage
              (Sample.get_request "/products/cap?js=1&js=0" None))
  = Some {| Root.js := Js.boolean true |}.
Proof. vm_compute. reflexivity. Qed.

(** ** Search parameters, headers and responses *)

Lemma URLSearchParams_has_get (name : string) (p : URLSearchParams) :
  URLSearchParams_has name p = true <-> exists v, URLSearchParams_get name p = Some v.
Proof.
  induction p as [|[k v] rest IH]; cbn.
  - split; [discriminate|]. intros [v Hv]. discriminate.
  - destruct (String.eqb k name); cbn; [|exact IH].
    split; eauto.
Qed.

Lemma Set_Cookie_of_json {B : Type} (data : B) (value : string) :
  Headers_get "Set-Cookie" (res_headers (json data [("Set-Cookie", value)]))
  = Some value.
Proof. reflexivity. Qed.

Lemma Cache_Control_of_json {B : Type} (data : B) (value : string) :
  Headers_get "Cache-Control" (res_headers (json data [("Cache-Control", value)]))
  = Some value.
Proof. reflexivity. Qed.

Lemma redirect_target_redirect {B : Type} (url : string) :
  redirect_target (@redirect B url) = Some url.
Proof. reflexivity. Qed.

Lemma json_is_not_a_redirect {B : Type} (data : B) (init_headers : Headers) :
  redirect_target (json data init_headers) = None.
Proof. reflexivity. Qed.

(** ** Feature negotiation in the root loader *)

Section FeatureNegotiation.

Context {platform : WebPlatform} {storage : SessionStorage}.

(** The two branches of the loader, each as one equation. *)
Lemma root_loader_with_override (request : Request) :
  URLSearchParams_has "js" (URL_searchParams (req_url request)) = true ->
  Root.loader request =
    json {| Root.js := Js.boolean
              (Js.strict_eq_string
                 (URLSearchParams_get "js" (URL_searchParams (req_url request))) "1") |}
         [("Set-Cookie",
           commitSession
             (Session_set "js"
                (Js.boolean
                   (Js.strict_eq_string
                      (URLSearchParams_get "js" (URL_searchParams (req_url request))) "1"))
                (getSession (Headers_get "Cookie" (req_headers request)))))].
Proof. intros Hhas. unfold Root.loader. rewrite Hhas. reflexivity. Qed.

Lemma root_loader_without_override (request : Request) :
  URLSearchParams_has "js" (URL_searchParams (req_url request)) = false ->
  Root.loader request =
    json {| Root.js := Session_get "js"
                         (getSession (Headers_get "Cookie" (req_headers request))) |}
         [("Set-Cookie",
           commitSession (getSession (Headers_get "Cookie" (req_headers request))))].
Proof. intros Hhas. unfold Root.loader. rewrite Hhas. reflexivity. Qed.

Lemma Session_set_lookup (name : string) (v : Js.value) (session : Session) :
  Session_set name v session !! name = Some v.
Proof. unfold Session_set. apply lookup_insert_eq. Qed.

Lemma Session_set_other (name other : string) (v : Js.value) (session : Session) :
  name <> other -> Session_set name v session !! other = session !! other.
Proof. intros Hne. unfold Session_set. by apply lookup_insert_ne. Qed.

Lemma strict_eq_string_false (x : option string) (lit : string) :
  x <> Some lit -> Js.strict_eq_string x lit = false.
Proof.
  intros Hne. destruct x as [s|]; [|reflexivity]. cbn.
  apply String.eqb_neq. congruence.
Qed.

(** C3: when the URL carries [js] with some value, the flag is the
    override's boolean value, [true] for the value ["1"] and [false] for
    any other, whatever the session held; the session that is committed
    records that boolean under [js] and is otherwise the session that
    was decoded; and, the codec obeying its round-trip law, decoding the
    cookie that the response issues gives that boolean again. *)
Theorem override_wins_and_is_sticky (request : Request) (value : string) :
  js_round_trip storage ->
  URLSearchParams_get "js" (URL_searchParams (req_url request)) = Some value ->
  res_body (Root.loader request)
    = Some {| Root.js := Js.boolean (String.eqb value "1") |} /\
  (forall data, res_body (Root.loader request) = Some data ->
                Root.App_attaches_Scripts data = String.eqb value "1") /\
  (exists committed : Session,
     Headers_get "Set-Cookie" (res_headers (Root.loader request))
       = Some (commitSession committed) /\
     committed !! "js" = Some (Js.boolean (String.eqb value "1")) /\
     (forall other, other <> "js" ->
        committed !! other
        = getSession (Headers_get "Cookie" (req_headers request)) !! other)) /\
  (forall cookie,
     Headers_get "Set-Cookie" (res_headers (Root.loader request)) = Some cookie ->
     getSession (Some cookie) !! "js" = Some (Js.boolean (String.eqb value "1"))).
Proof.
  intros Hcodec Hvalue.
  assert (Hhas : URLSearchParams_has "js" (URL_searchParams (req_url request)) = true)
    by (apply URLSearchParams_has_get; eauto).
  rewrite (root_loader_with_override request Hhas), Hvalue.
  cbn [Js.strict_eq_string].
  split; [reflexivity|].
  split. { intros data Hdata. cbn in Hdata. by inversion Hdata. }
  split.
  { eexists. split; [apply Set_Cookie_of_json|].
    split; [apply Session_set_lookup|].
    intros other Hother. apply Session_set_other. congruence. }
  intros cookie Hcookie. rewrite Set_Cookie_of_json in Hcookie.
  inversion Hcookie; subst cookie.
  apply Hcodec, Session_set_lookup.
Qed.

(** C6: without a [js] parameter and with no [js] recorded in the
    session, the loader's flag is [undefined], which [Document] treats as
    false (no scripts attached), and the session that is committed is
    the decoded one, still without a [js] key. *)
Theorem unset_renders_without_scripts_and_is_not_persisted (request : Request) :
  URLSearchParams_has "js" (URL_searchParams (req_url request)) = false ->
  getSession (Headers_get "Cookie" (req_headers request)) !! "js" = None ->
  res_body (Root.loader request) = Some {| Root.js := Js.undefined |} /\
  (forall data, res_body (Root.loader request) = Some data ->
                Root.App_attaches_Scripts data = false) /\
  exists committed : Session,
    Headers_get "Set-Cookie" (res_headers (Root.loader request))
      = Some (commitSession committed) /\
    committed = getSession (Headers_get "Cookie" (req_headers request)) /\
    committed !! "js" = None.
Proof.
  intros Hhas Hunset.
  rewrite (root_loader_without_override request Hhas).
  assert (Hflag : Session_get "js"
            (getSession (Headers_get "Cookie" (req_headers request))) = Js.undefined).
  { unfold Session_get. by rewrite Hunset. }
  rewrite Hflag.
  split; [reflexivity|].
  split. { intros data Hdata. cbn in Hdata. by inversion Hdata. }
  eexists. split; [apply Set_Cookie_of_json|]. by split.
Qed.

(** C10: a [js] parameter whose value (the one [searchParams.get]
    reads, that of its first occurrence) is not exactly ["1"] resolves
    the flag to [false] and stores [false] under [js] in the committed
    session, whatever was stored there before. *)
Theorem any_other_override_turns_scripts_off (request : Request) (value : string) :
  URLSearchParams_get "js" (URL_searchParams (req_url request)) = Some value ->
  value <> "1" ->
  res_body (Root.loader request) = Some {| Root.js := Js.boolean false |} /\
  (forall data, res_body (Root.loader request) = Some data ->
                Root.App_attaches_Scripts data = false) /\
  exists committed : Session,
    Headers_get "Set-Cookie" (res_headers (Root.loader request))
      = Some (commitSession committed) /\
    committed
      = Session_set "js" (Js.boolean false)
          (getSession (Headers_get "Cookie" (req_headers request))) /\
    committed !! "js" = Some (Js.boolean false).
Proof.
  intros Hget Hvalue.
  assert (Hhas : URLSearchParams_has "js" (URL_searchParams (req_url request)) = true)
    by (apply URLSearchParams_has_get; eauto).
  rewrite (root_loader_with_override request Hhas).
  rewrite strict_eq_string_false by (rewrite Hget; congruence).
  split; [reflexivity|].
  split. { intros data Hdata. cbn in Hdata. by inversion Hdata. }
  eexists. split; [apply Set_Cookie_of_json|].
  split; [reflexivity|]. apply Session_set_lookup.
Qed.

End FeatureNegotiation.

(** ** The catch boundary *)

(** C9: a caught response whose status is neither 401 nor 404 makes the
    boundary throw; it renders nothing for it.  The boundary renders
    exactly the statuses 401 and 404. *)
Theorem catch_boundary_escalates_other_statuses (caught : Root.Caught) :
  Root.status caught <> 401%Z ->
  Root.status caught <> 404%Z ->
  Root.CatchBoundary caught
    = Root.Thrown ("Unexpected caught response with status: "
                   +:+ pretty (Root.status caught)) /\
  (forall heading, Root.CatchBoundary caught <> Root.Rendered heading) /\
  (forall other : Root.Caught,
     (exists heading, Root.CatchBoundary other = Root.Rendered heading)
     <-> (Root.status other = 401%Z \/ Root.status other = 404%Z)).
Proof.
  intros H401 H404.
  assert (Hthrow : forall c : Root.Caught,
            Root.status c <> 401%Z -> Root.status c <> 404%Z ->
            Root.CatchBoundary c
            = Root.Thrown ("Unexpected caught response with status: "
                           +:+ pretty (Root.status c))).
  { intros c Hc1 Hc2. unfold Root.CatchBoundary.
    destruct (Z.eqb_spec (Root.status c) 401); [contradiction|].
    destruct (Z.eqb_spec (Root.status c) 404); [contradiction|].
    reflexivity. }
  split; [by apply Hthrow|].
  split. { intros heading. rewrite (Hthrow caught H401 H404). discriminate. }
  intros other. split.
  - intros [heading Hrendered].
    destruct (Z.eq_dec (Root.status other) 401) as [|Hne1]; [by left|].
    destruct (Z.eq_dec (Root.status other) 404) as [|Hne2]; [by right|].
    rewrite (Hthrow other Hne1 Hne2) in Hrendered. discriminate.
  - unfold Root.CatchBoundary. intros [Heq|Heq]; rewrite Heq; cbn; eauto.
Qed.

(** ** The product route's loader *)

Section PageData.

Context {sdk : Sdk}.

Lemma loader_when_both_fulfilled (params : ProductsHandle.Params)
    (q1 : ProductByHandleQuery) (q2 : ProductsQuery) :
  ProductByHandle_settles (ProductsHandle.params_handle params) = Fulfilled q1 ->
  Products_settles = Fulfilled q2 ->
  ProductsHandle.loader params =
    (Fulfilled
       (json {| ProductsHandle.product := productByHandle q1;
                ProductsHandle.relatedProducts :=
                  take 4 (filter (fun item => handle (node item)
                                              <> ProductsHandle.params_handle params)
                                 (edges (products q2))) |}
             [("Cache-Control",
               "max-age=60, s-maxage=3600, stale-while-revalidate=604800")]),
     [CallProductByHandle (ProductsHandle.params_handle params); CallProducts]).
Proof.
  intros Hproduct Hlist.
  unfold ProductsHandle.loader, sdk_ProductByHandle, sdk_Products, Promise_all2, await.
  rewrite Hproduct, Hlist. reflexivity.
Qed.

Lemma loader_when_one_rejected (params : ProductsHandle.Params) :
  (exists e, ProductByHandle_settles (ProductsHandle.params_handle params) = Rejected e)
  \/ (exists e, Products_settles = Rejected e) ->
  ProductsHandle.loader params =
    (Rejected CatalogUnavailable,
     [CallProductByHandle (ProductsHandle.params_handle params); CallProducts]).
Proof.
  unfold ProductsHandle.loader, sdk_ProductByHandle, sdk_Products, Promise_all2, await.
  intros [[e He]|[e He]]; rewrite He.
  - destruct e. reflexivity.
  - destruct e.
    destruct (ProductByHandle_settles (ProductsHandle.params_handle params)) as [q|[]];
      reflexivity.
Qed.

Lemma loader_fulfilled_inv (params : ProductsHandle.Params)
    (response : Response ProductsHandle.RouteData) :
  fst (ProductsHandle.loader params) = Fulfilled response ->
  exists q1 q2,
    ProductByHandle_settles (ProductsHandle.params_handle params) = Fulfilled q1 /\
    Products_settles = Fulfilled q2 /\
    response =
      json {| ProductsHandle.product := productByHandle q1;
              ProductsHandle.relatedProducts :=
                take 4 (filter (fun item => handle (node item)
                                            <> ProductsHandle.params_handle params)
                               (edges (products q2))) |}
           [("Cache-Control",
             "max-age=60, s-maxage=3600, stale-while-revalidate=604800")].
Proof.
  intros Hfulfilled.
  destruct (ProductByHandle_settles (ProductsHandle.params_handle params))
    as [q1|e1] eqn:Hproduct.
  - destruct Products_settles as [q2|e2] eqn:Hlist.
    + rewrite (loader_when_both_fulfilled params q1 q2 Hproduct Hlist) in Hfulfilled.
      cbn in Hfulfilled. inversion Hfulfilled. by exists q1, q2.
    + rewrite loader_when_one_rejected in Hfulfilled by (right; eauto).
      discriminate.
  - rewrite loader_when_one_rejected in Hfulfilled by (left; eauto).
    discriminate.
Qed.

(** Filtering and then slicing is the one-pass reading of the design. *)
Lemma take_filter_first_remaining (requested : string) (l : list (Edge Product)) (n : nat) :
  take n (filter (fun item => handle (node item) <> requested) l)
  = ProductsHandle.first_remaining requested l n.
Proof.
  revert n. induction l as [|item rest IH]; intros n.
  - by destruct n.
  - destruct n as [|n'].
    + by rewrite take_0.
    + cbn [ProductsHandle.first_remaining].
      destruct (String.eqb_spec (handle (node item)) requested) as [Heq|Hne].
      * rewrite filter_cons_False by (intros Hkeep; by apply Hkeep).
        apply IH.
      * rewrite filter_cons_True by done.
        cbn [take]. f_equal. apply IH.
Qed.

Lemma take_is_the_front {A : Type} (n : nat) (l : list A) :
  exists rest, l = take n l ++ rest /\ (length (take n l) = n \/ rest = []).
Proof.
  exists (drop n l). split; [by rewrite take_drop|].
  destruct (decide (n <= length l)) as [Hle|Hgt].
  - left. by apply length_take_le.
  - right. apply drop_ge. lia.
Qed.

(** C1: the related products of a served page contain no entry with the
    requested handle, are at most four, and are the first four entries
    that remain of the catalog's list, in the list's order. *)
Theorem related_products_are_the_first_four_others
    (params : ProductsHandle.Params) (q : ProductsQuery)
    (response : Response ProductsHandle.RouteData) :
  Products_settles = Fulfilled q ->
  fst (ProductsHandle.loader params) = Fulfilled response ->
  exists data,
    res_body response = Some data /\
    Forall (fun item => handle (node item) <> ProductsHandle.params_handle params)
           (ProductsHandle.relatedProducts data) /\
    length (ProductsHandle.relatedProducts data) <= 4 /\
    ProductsHandle.relatedProducts data
      = ProductsHandle.first_remaining (ProductsHandle.params_handle params)
          (edges (products q)) 4 /\
    ProductsHandle.relatedProducts data `sublist_of` edges (products q) /\
    exists rest,
      filter (fun item => handle (node item) <> ProductsHandle.params_handle params)
             (edges (products q))
        = ProductsHandle.relatedProducts data ++ rest /\
      (length (ProductsHandle.relatedProducts data) = 4 \/ rest = []).
Proof.
  intros Hlist Hfulfilled.
  destruct (loader_fulfilled_inv params response Hfulfilled)
    as (q1 & q2 & _ & Hlist' & ->).
  rewrite Hlist in Hlist'. inversion Hlist'; subst q2.
  eexists. split; [reflexivity|]. cbn [ProductsHandle.relatedProducts].
  split.
  { apply Forall_take, Forall_forall. intros item Hin.
    by apply list_elem_of_filter in Hin as [Hkeep _]. }
  split. { rewrite length_take. lia. }
  split. { apply take_filter_first_remaining. }
  split.
  { transitivity (filter (fun item => handle (node item)
                                      <> ProductsHandle.params_handle params)
                         (edges (products q))).
    - apply sublist_take.
    - apply sublist_filter. }
  apply take_is_the_front.
Qed.

(** C4: when either of the two reads is rejected, both having been
    issued, the loader is rejected with [CatalogUnavailable] and there
    is no response, whatever the other read returned. *)
Theorem loader_fails_when_either_read_fails (params : ProductsHandle.Params) :
  ProductByHandle_settles (ProductsHandle.params_handle params)
    = Rejected CatalogUnavailable
  \/ Products_settles = Rejected CatalogUnavailable ->
  fst (ProductsHandle.loader params) = Rejected CatalogUnavailable /\
  (forall response, fst (ProductsHandle.loader params) <> Fulfilled response) /\
  snd (ProductsHandle.loader params)
    = [CallProductByHandle (ProductsHandle.params_handle params); CallProducts].
Proof.
  intros Hrejected.
  rewrite loader_when_one_rejected by (destruct Hrejected; eauto).
  cbn. split; [reflexivity|]. split; [discriminate|reflexivity].
Qed.

(** C7: every response of the loader carries the one fixed
    [Cache-Control] value, whatever the handle and the catalog's answers,
    and [headers] puts the loader's value, unchanged, on what is served. *)
Theorem cache_control_is_fixed_and_copied
    (params : ProductsHandle.Params) (response : Response ProductsHandle.RouteData) :
  fst (ProductsHandle.loader params) = Fulfilled response ->
  Headers_get "Cache-Control" (res_headers response)
    = Some "max-age=60, s-maxage=3600, stale-while-revalidate=604800" /\
  ProductsHandle.headers (res_headers response)
    = [("Cache-Control", "max-age=60, s-maxage=3600, stale-while-revalidate=604800")] /\
  (forall (loaderHeaders : Headers) (value : string),
     Headers_get "Cache-Control" loaderHeaders = Some value ->
     ProductsHandle.headers loaderHeaders = [("Cache-Control", value)]).
Proof.
  intros Hfulfilled.
  destruct (loader_fulfilled_inv params response Hfulfilled)
    as (q1 & q2 & _ & _ & ->).
  split; [apply Cache_Control_of_json|].
  split; [reflexivity|].
  intros loaderHeaders value Hvalue. unfold ProductsHandle.headers.
  by rewrite Hvalue.
Qed.

End PageData.

(** C8: when the catalog has no product for the handle and the list is
    read, the loader is fulfilled with a 200 response whose view model
    has no product and the related products computed from the list in
    the same way as for a page whose product is found. *)
Theorem unknown_handle_still_gets_related_products {sdk : Sdk}
    (params : ProductsHandle.Params) (q : ProductsQuery) :
  ProductByHandle_settles (ProductsHandle.params_handle params)
    = Fulfilled {| productByHandle := None |} ->
  Products_settles = Fulfilled q ->
  exists response data,
    fst (ProductsHandle.loader params) = Fulfilled response /\
    res_status response = 200%Z /\
    res_body response = Some data /\
    ProductsHandle.product data = None /\
    ProductsHandle.relatedProducts data
      = take 4 (filter (fun item => handle (node item)
                                    <> ProductsHandle.params_handle params)
                       (edges (products q))) /\
    ProductsHandle.relatedProducts data
      = ProductsHandle.first_remaining (ProductsHandle.params_handle params)
          (edges (products q)) 4 /\
    (forall (other : Sdk) (response' : Response ProductsHandle.RouteData),
       @Products_settles other = Fulfilled q ->
       fst (@ProductsHandle.loader other params) = Fulfilled response' ->
       ProductsHandle.relatedProducts <$> res_body response'
         = Some (ProductsHandle.relatedProducts data)).
Proof.
  intros Hproduct Hlist.
  rewrite (loader_when_both_fulfilled params _ q Hproduct Hlist).
  do 2 eexists. split; [reflexivity|].
  split; [reflexivity|]. split; [reflexivity|]. split; [reflexivity|].
  split; [reflexivity|].
  split; [apply take_filter_first_remaining|].
  intros other response' Hlist' Hfulfilled.
  destruct (@loader_fulfilled_inv other params response' Hfulfilled)
    as (q1 & q2 & _ & Hq2 & ->).
  rewrite Hlist' in Hq2. inversion Hq2; subst q2. reflexivity.
Qed.

(** ** The mutation handler *)

Section Mutation.

Context {platform : WebPlatform} {sdk : Sdk}.

Lemma action_without_variant (request : Request) :
  URLSearchParams_get "variantId" (URLSearchParams_new (req_text request)) = None
  \/ URLSearchParams_get "variantId" (URLSearchParams_new (req_text request))
     = Some EmptyString ->
  ProductsHandle.action request = (Fulfilled (redirect (req_url request)), []).
Proof.
  unfold ProductsHandle.action. intros [Hget|Hget]; rewrite Hget; reflexivity.
Qed.

Lemma action_with_variant (request : Request) (variantId : string) :
  URLSearchParams_get "variantId" (URLSearchParams_new (req_text request))
    = Some variantId ->
  variantId <> EmptyString ->
  ProductsHandle.action request =
    (match CreateCheckout_settles variantId with
     | Fulfilled res =>
         match checkoutCreate res ≫= checkout with
         | None => Fulfilled (redirect (req_url request))
         | Some created => Fulfilled (redirect (webUrl created))
         end
     | Rejected e => Rejected e
     end, [CallCreateCheckout variantId]).
Proof.
  intros Hget Hfilled. unfold ProductsHandle.action. rewrite Hget.
  apply String.eqb_neq in Hfilled. rewrite Hfilled.
  unfold sdk_CreateCheckout, await.
  destruct (CreateCheckout_settles variantId) as [res|e]; [|reflexivity].
  destruct (checkoutCreate res ≫= checkout); reflexivity.
Qed.

(** C5: a submission without [variantId], or with an empty one, is
    answered by a redirect to the request's own URL, and no remote
    operation is issued. *)
Theorem empty_submission_redirects_back_without_calls (request : Request) :
  URLSearchParams_get "variantId" (URLSearchParams_new (req_text request)) = None
  \/ URLSearchParams_get "variantId" (URLSearchParams_new (req_text request))
     = Some EmptyString ->
  exists response,
    fst (ProductsHandle.action request) = Fulfilled response /\
    redirect_target response = Some (req_url request) /\
    snd (ProductsHandle.action request) = [].
Proof.
  intros Hempty. rewrite (action_without_variant request Hempty).
  eexists. split; [reflexivity|]. split; [apply redirect_target_redirect|reflexivity].
Qed.

(** C2, as the handler has it: with a non-empty [variantId] the one
    remote operation issued is [CreateCheckout]; when it returns without
    a checkout the answer is a redirect to the request's own URL; when a
    checkout is created the answer is a redirect to its [webUrl]; when
    it is rejected the handler is rejected with the same error and
    answers nothing. *)
Theorem checkout_outcome_decides_the_redirect (request : Request) (variantId : string) :
  URLSearchParams_get "variantId" (URLSearchParams_new (req_text request))
    = Some variantId ->
  variantId <> EmptyString ->
  snd (ProductsHandle.action request) = [CallCreateCheckout variantId] /\
  (forall res,
     CreateCheckout_settles variantId = Fulfilled res ->
     checkoutCreate res ≫= checkout = None ->
     exists response,
       fst (ProductsHandle.action request) = Fulfilled response /\
       redirect_target response = Some (req_url request)) /\
  (forall res created,
     CreateCheckout_settles variantId = Fulfilled res ->
     checkoutCreate res ≫= checkout = Some created ->
     exists response,
       fst (ProductsHandle.action request) = Fulfilled response /\
       redirect_target response = Some (webUrl created)) /\
  (forall e,
     CreateCheckout_settles variantId = Rejected e ->
     fst (ProductsHandle.action request) = Rejected e /\
     forall response, fst (ProductsHandle.action request) <> Fulfilled response).
Proof.
  intros Hget Hfilled.
  rewrite (action_with_variant request variantId Hget Hfilled). cbn [fst snd].
  split; [reflexivity|].
  split.
  { intros res -> ->. eexists. split; [reflexivity|]. apply redirect_target_redirect. }
  split.
  { intros res created -> ->. eexists. split; [reflexivity|].
    apply redirect_target_redirect. }
  intros e ->. split; [reflexivity|discriminate].
Qed.

End Mutation.

(** ** The theorems at concrete requests *)

Lemma sample_codec_round_trip : js_round_trip Sample.storage.
Proof.
  intros session b Hjs. cbn [getSession commitSession Sample.storage].
  unfold Sample.encode. rewrite Hjs. destruct b; reflexivity.
Qed.

Lemma override_wins_and_is_sticky_witness :
  js_round_trip Sample.storage /\
  URLSearchParams_get "js"
    (@URL_searchParams Sample.platform (req_url Sample.visit_js_on)) = Some "1" /\
  @getSession Sample.storage (Headers_get "Cookie" (req_headers Sample.visit_js_on))
    !! "js" = Some (Js.boolean false) /\
  res_body (@Root.loader Sample.platform Sample.storage Sample.visit_js_on)
    = Some {| Root.js := Js.boolean true |} /\
  @getSession Sample.storage (Some "__session=js:1") !! "js" = Some (Js.boolean true).
Proof.
  split; [exact sample_codec_round_trip|].
  split; [reflexivity|]. split; [reflexivity|].
  destruct (@override_wins_and_is_sticky Sample.platform Sample.storage
              Sample.visit_js_on "1" sample_codec_round_trip eq_refl)
    as (Hbody & _ & _ & Hagain).
  split; [exact Hbody|]. exact (Hagain "__session=js:1" eq_refl).
Defined.

Lemma unset_witness :
  URLSearchParams_has "js"
    (@URL_searchParams Sample.platform (req_url Sample.first_visit)) = false /\
  @getSession Sample.storage (Headers_get "Cookie" (req_headers Sample.first_visit))
    !! "js" = None /\
  res_body (@Root.loader Sample.platform Sample.storage Sample.first_visit)
    = Some {| Root.js := Js.undefined |}.
Proof.
  split; [reflexivity|]. split; [reflexivity|].
  exact (proj1 (@unset_renders_without_scripts_and_is_not_persisted
                  Sample.platform Sample.storage Sample.first_visit eq_refl eq_refl)).
Defined.

Lemma any_other_override_witness :
  URLSearchParams_get "js"
    (@URL_searchParams Sample.platform (req_url Sample.visit_js_off)) = Some "0" /\
  "0" <> "1" /\
  res_body (@Root.loader Sample.platform Sample.storage Sample.visit_js_off)
    = Some {| Root.js := Js.boolean false |} /\
  @getSession Sample.storage (Headers_get "Cookie" (req_headers Sample.visit_js_off))
    !! "js" = Some (Js.boolean true).
Proof.
  assert (Hvalue : "0" <> "1") by discriminate.
  split; [reflexivity|]. split; [exact Hvalue|].
  split; [|reflexivity].
  exact (proj1 (@any_other_override_turns_scripts_off
                  Sample.platform Sample.storage Sample.visit_js_off "0"
                  eq_refl Hvalue)).
Defined.

Lemma catch_boundary_witness :
  (500 <> 401)%Z /\ (500 <> 404)%Z /\
  Root.CatchBoundary (Root.mkCaught 500 "Internal Server Error")
  = Root.Thrown "Unexpected caught response with status: 500".
Proof.
  assert (H401 : (500 <> 401)%Z) by lia.
  assert (H404 : (500 <> 404)%Z) by lia.
  split; [exact H401|]. split; [exact H404|].
  exact (proj1 (catch_boundary_escalates_other_statuses
                  (Root.mkCaught 500 "Internal Server Error") H401 H404)).
Defined.

Lemma related_products_witness :
  exists q response,
    @Products_settles Sample.shop_sdk = Fulfilled q /\
    fst (@ProductsHandle.loader Sample.shop_sdk Sample.classic_tee) = Fulfilled response /\
    exists data,
      res_body response = Some data /\
      Forall (fun item => handle (node item) <> "classic-tee")
             (ProductsHandle.relatedProducts data) /\
      length (ProductsHandle.relatedProducts data) <= 4.
Proof.
  do 2 eexists. split; [reflexivity|]. split; [reflexivity|].
  destruct (@related_products_are_the_first_four_others Sample.shop_sdk
              Sample.classic_tee _ _ eq_refl eq_refl)
    as (data & Hbody & Hothers & Hlength & _).
  exists data. split; [exact Hbody|]. split; [exact Hothers|exact Hlength].
Defined.

Lemma loader_fails_witness :
  (@ProductByHandle_settles Sample.list_down "classic-tee" = Rejected CatalogUnavailable
   \/ @Products_settles Sample.list_down = Rejected CatalogUnavailable) /\
  fst (@ProductsHandle.loader Sample.list_down Sample.classic_tee)
    = Rejected CatalogUnavailable.
Proof.
  split; [right; reflexivity|].
  exact (proj1 (@loader_fails_when_either_read_fails Sample.list_down
                  Sample.classic_tee (or_intror eq_refl))).
Defined.

Lemma cache_control_witness :
  exists response,
    fst (@ProductsHandle.loader Sample.shop_sdk Sample.classic_tee) = Fulfilled response /\
    ProductsHandle.headers (res_headers response)
      = [("Cache-Control", "max-age=60, s-maxage=3600, stale-while-revalidate=604800")].
Proof.
  eexists. split; [reflexivity|].
  exact (proj1 (proj2 (@cache_control_is_fixed_and_copied Sample.shop_sdk
                         Sample.classic_tee _ eq_refl))).
Defined.

Lemma unknown_handle_witness :
  exists q,
    @ProductByHandle_settles Sample.shop_sdk "ghost-product"
      = Fulfilled {| productByHandle := None |} /\
    @Products_settles Sample.shop_sdk = Fulfilled q /\
    exists response data,
      fst (@ProductsHandle.loader Sample.shop_sdk Sample.ghost_product)
        = Fulfilled response /\
      res_body response = Some data /\
      ProductsHandle.product data = None /\
      map (fun item => handle (node item)) (ProductsHandle.relatedProducts data)
        = ["classic-tee"; "hoodie"; "cap"; "socks"].
Proof.
  eexists. split; [reflexivity|]. split; [reflexivity|].
  destruct (@unknown_handle_still_gets_related_products Sample.shop_sdk
              Sample.ghost_product _ eq_refl eq_refl)
    as (response & data & Hfulfilled & _ & Hbody & Hproduct & Hrelated & _).
  exists response, data.
  split; [exact Hfulfilled|]. split; [exact Hbody|]. split; [exact Hproduct|].
  rewrite Hrelated. reflexivity.
Defined.

Lemma empty_submission_witness :
  (URLSearchParams_get "variantId"
     (@URLSearchParams_new Sample.platform (req_text Sample.buy_nothing)) = None
   \/ URLSearchParams_get "variantId"
        (@URLSearchParams_new Sample.platform (req_text Sample.buy_nothing))
      = Some EmptyString) /\
  exists response,
    fst (@ProductsHandle.action Sample.platform Sample.shop_sdk Sample.buy_nothing)
      = Fulfilled response /\
    redirect_target response = Some "/products/cap" /\
    snd (@ProductsHandle.action Sample.platform Sample.shop_sdk Sample.buy_nothing) = [].
Proof.
  split; [right; reflexivity|].
  exact (@empty_submission_redirects_back_without_calls Sample.platform
           Sample.shop_sdk Sample.buy_nothing (or_intror eq_refl)).
Defined.

Lemma checkout_outcome_witness :
  URLSearchParams_get "variantId"
    (@URLSearchParams_new Sample.platform (req_text Sample.buy_cap))
    = Some "variant-cap" /\
  "variant-cap" <> EmptyString /\
  snd (@ProductsHandle.action Sample.platform Sample.shop_sdk Sample.buy_cap)
    = [CallCreateCheckout "variant-cap"].
Proof.
  assert (Hfilled : "variant-cap" <> EmptyString) by discriminate.
  split; [reflexivity|]. split; [exact Hfilled|].
  exact (proj1 (@checkout_outcome_decides_the_redirect Sample.platform
                  Sample.shop_sdk Sample.buy_cap "variant-cap" eq_refl Hfilled)).
Defined.

(** C2 as written fails where [CreateCheckout] is rejected: the
    submission carries a non-empty [variantId], the remote operation
    raises [CatalogUnavailable], and the handler answers with no redirect
    at all: it is rejected with that error. *)
Lemma rejected_checkout_gives_no_redirect :
  URLSearchParams_get "variantId"
    (@URLSearchParams_new Sample.platform (req_text Sample.buy_cap))
    = Some "variant-cap" /\
  @CreateCheckout_settles Sample.checkout_down "variant-cap"
    = Rejected CatalogUnavailable /\
  fst (@ProductsHandle.action Sample.platform Sample.checkout_down Sample.buy_cap)
    = Rejected CatalogUnavailable /\
  ~ (exists response,
       fst (@ProductsHandle.action Sample.platform Sample.checkout_down Sample.buy_cap)
         = Fulfilled response /\
       redirect_target response = Some (req_url Sample.buy_cap)).
Proof.
  split; [reflexivity|]. split; [reflexivity|]. split; [reflexivity|].
  intros (response & Hfulfilled & _). vm_compute in Hfulfilled. discriminate.
Qed.

(** ** Reading rendered markup *)

Section Markup.

Import React.

Lemma existsb_flat_map {A B : Type} (f : B -> bool) (g : A -> list B) (l : list A) :
  existsb f (flat_map g l) = existsb (fun a => existsb f (g a)) l.
Proof.
  induction l as [|a l IH]; [reflexivity|].
  cbn. by rewrite existsb_app, IH.
Qed.

Lemma renders_Element (wanted tag : string) (key : option string)
    (props : list prop) (children : list element) :
  renders wanted (Element tag key props children)
  = String.eqb tag wanted || existsb (renders wanted) children.
Proof. unfold renders. cbn [elements existsb]. by rewrite existsb_flat_map. Qed.

Lemma renders_Text (wanted s : string) : renders wanted (Text s) = false.
Proof. reflexivity. Qed.

(** Any query that picks elements by a test and reads something off
    each goes through the tree child by child. *)
Lemma collect_Element {A : Type} (read : element -> option A) (test : element -> bool)
    (tag : string) (key : option string) (props : list prop) (children : list element) :
  omap read (List.filter test (elements (Element tag key props children)))
  = (if test (Element tag key props children)
     then option_list (read (Element tag key props children)) else [])
    ++ flat_map (fun c => omap read (List.filter test (elements c))) children.
Proof.
  cbn [elements List.filter].
  assert (Hbelow : omap read (List.filter test (flat_map elements children))
                   = flat_map (fun c => omap read (List.filter test (elements c))) children).
  { induction children as [|c children IH]; [reflexivity|].
    cbn [flat_map]. rewrite List.filter_app, omap_app. by rewrite IH. }
  destruct (test (Element tag key props children)); [|exact Hbelow].
  cbn [omap list_omap]. rewrite <- Hbelow.
  by destruct (read (Element tag key props children)).
Qed.

Lemma link_targets_Element (tag : string) (key : option string)
    (props : list prop) (children : list element) :
  link_targets (Element tag key props children)
  = (if String.eqb tag "Link" then option_list (text_of "to" props) else [])
    ++ flat_map link_targets children.
Proof. unfold link_targets, tagged. by rewrite collect_Element. Qed.

Lemma input_fields_Element (tag : string) (key : option string)
    (props : list prop) (children : list element) :
  input_fields (Element tag key props children)
  = (if String.eqb tag "input"
     then option_list (name ← text_of "name" props;
                       value ← text_of "value" props;
                       Some (name, value))
     else [])
    ++ flat_map input_fields children.
Proof. unfold input_fields, tagged. by rewrite collect_Element. Qed.

Lemma flags_Element (wanted name tag : string) (key : option string)
    (props : list prop) (children : list element) :
  flags wanted name (Element tag key props children)
  = (if String.eqb tag wanted then option_list (flag_of name props) else [])
    ++ flat_map (flags wanted name) children.
Proof. unfold flags, tagged. by rewrite collect_Element. Qed.

Lemma keys_Element (tag : string) (key : option string)
    (props : list prop) (children : list element) :
  keys (Element tag key props children)
  = option_list key ++ flat_map keys children.
Proof.
  unfold keys. cbn [elements omap list_omap key_of].
  assert (Hbelow : omap key_of (flat_map elements children)
                   = flat_map (fun c => omap key_of (elements c)) children).
  { induction children as [|c children IH]; [reflexivity|].
    cbn [flat_map]. by rewrite omap_app, IH. }
  rewrite Hbelow. by destruct key.
Qed.

End Markup.

#[local] Arguments React.link_targets : simpl never.
#[local] Arguments React.input_fields : simpl never.
#[local] Arguments React.flags : simpl never.
#[local] Arguments React.keys : simpl never.
#[local] Arguments React.renders : simpl never.

Lemma link_targets_Text (s : string) : React.link_targets (React.Text s) = [].
Proof. reflexivity. Qed.

Lemma input_fields_Text (s : string) : React.input_fields (React.Text s) = [].
Proof. reflexivity. Qed.

Lemma flags_Text (wanted name s : string) : React.flags wanted name (React.Text s) = [].
Proof. reflexivity. Qed.

Lemma keys_Text (s : string) : React.keys (React.Text s) = [].
Proof. reflexivity. Qed.

Ltac read_links :=
  repeat first [rewrite link_targets_Element | rewrite link_targets_Text | progress cbn].
Ltac read_inputs :=
  repeat first [rewrite input_fields_Element | rewrite input_fields_Text | progress cbn].
Ltac read_flags :=
  repeat first [rewrite flags_Element | rewrite flags_Text | progress cbn].
Ltac read_keys :=
  repeat first [rewrite keys_Element | rewrite keys_Text | progress cbn].
Ltac read_renders :=
  repeat first [rewrite renders_Element | rewrite renders_Text | progress cbn].

(** ** What the page's markup contains *)

Section PageMarkup.

Import React.

Context {S : Type}.
Implicit Types (product : Product) (image : Image) (cards : list element)
  (pendingForm : option S).

Lemma link_targets_card product image (price : string) :
  link_targets (ProductView.card_markup product image price)
  = ["/products/" +:+ handle product].
Proof. unfold ProductView.card_markup, el. read_links. reflexivity. Qed.

Lemma input_fields_card product image (price : string) :
  input_fields (ProductView.card_markup product image price) = [].
Proof. unfold ProductView.card_markup, el. read_inputs. reflexivity. Qed.

Lemma keys_card product image (price : string) :
  keys (ProductView.card_markup product image price) = [handle product].
Proof. unfold ProductView.card_markup, el. read_keys. reflexivity. Qed.

Lemma disabled_card product image (price : string) :
  flags "fieldset" "disabled" (ProductView.card_markup product image price) = [].
Proof. unfold ProductView.card_markup, el. read_flags. reflexivity. Qed.

Lemma renders_svg_card product image (price : string) :
  renders "svg" (ProductView.card_markup product image price) = false.
Proof. unfold ProductView.card_markup, el. read_renders. reflexivity. Qed.

Lemma link_targets_page product (variantId : string) image (updated pay : string)
    cards pendingForm :
  link_targets (ProductView.page_markup product variantId image updated pay cards pendingForm)
  = "/" :: flat_map link_targets cards.
Proof.
  unfold ProductView.page_markup, ProductView.spinner, el.
  destruct pendingForm; read_links; by rewrite ?app_nil_r.
Qed.

Lemma input_fields_page product (variantId : string) image (updated pay : string)
    cards pendingForm :
  input_fields (ProductView.page_markup product variantId image updated pay cards pendingForm)
  = ("variantId", variantId) :: flat_map input_fields cards.
Proof.
  unfold ProductView.page_markup, ProductView.spinner, el.
  destruct pendingForm; read_inputs; by rewrite ?app_nil_r.
Qed.

Lemma keys_page product (variantId : string) image (updated pay : string)
    cards pendingForm :
  keys (ProductView.page_markup product variantId image updated pay cards pendingForm)
  = flat_map keys cards.
Proof.
  unfold ProductView.page_markup, ProductView.spinner, el.
  destruct pendingForm; read_keys; by rewrite ?app_nil_r.
Qed.

Lemma disabled_page product (variantId : string) image (updated pay : string)
    cards pendingForm :
  flags "fieldset" "disabled"
    (ProductView.page_markup product variantId image updated pay cards pendingForm)
  = bool_decide (is_Some pendingForm)
    :: flat_map (flags "fieldset" "disabled") cards.
Proof.
  unfold ProductView.page_markup, ProductView.spinner, el.
  destruct pendingForm; read_flags; by rewrite ?app_nil_r.
Qed.

Lemma renders_svg_page product (variantId : string) image (updated pay : string)
    cards pendingForm :
  renders "svg"
    (ProductView.page_markup product variantId image updated pay cards pendingForm)
  = bool_decide (is_Some pendingForm) || existsb (renders "svg") cards.
Proof.
  unfold ProductView.page_markup, ProductView.spinner, el.
  destruct pendingForm; read_renders; by rewrite ?orb_false_r.
Qed.

End PageMarkup.

(** ** The root loader across requests, and the root components *)

Section RootPages.

Import React.

Context {platform : WebPlatform} {storage : SessionStorage} {env : Environment}.

Lemma renders_Scripts_Document (children : list element) (enableJS : Js.value) :
  existsb (renders "Scripts") children = false ->
  renders "Scripts" (RootView.Document children enableJS) = Js.ToBoolean enableJS.
Proof.
  intros Hchildren. unfold RootView.Document, el.
  rewrite renders_Element. cbn [String.eqb Ascii.eqb Bool.eqb orb existsb].
  rewrite !renders_Element. cbn -[renders Js.ToBoolean Js.strict_eq_string].
  rewrite !existsb_app, Hchildren.
  destruct (Js.ToBoolean enableJS), (Js.strict_eq_string NODE_ENV "development");
    reflexivity.
Qed.

Lemma renders_Scripts_App (data : Root.RouteData) :
  renders "Scripts" (RootView.App data) = Js.ToBoolean (Root.js data).
Proof. unfold RootView.App. by apply renders_Scripts_Document. Qed.

(** X1: without a [js] parameter, a boolean recorded in the session is
    the flag of the response, the page attaches the scripts exactly when
    it is [true], and the session is committed as it was decoded. *)
Theorem stored_preference_is_honoured (request : Request) (b : bool) :
  URLSearchParams_has "js" (URL_searchParams (req_url request)) = false ->
  getSession (Headers_get "Cookie" (req_headers request)) !! "js"
    = Some (Js.boolean b) ->
  res_body (Root.loader request) = Some {| Root.js := Js.boolean b |} /\
  (forall data, res_body (Root.loader request) = Some data ->
                renders "Scripts" (RootView.App data) = b) /\
  Headers_get "Set-Cookie" (res_headers (Root.loader request))
    = Some (commitSession (getSession (Headers_get "Cookie" (req_headers request)))).
Proof.
  intros Hhas Hstored.
  rewrite (root_loader_without_override request Hhas).
  assert (Hflag : Session_get "js"
            (getSession (Headers_get "Cookie" (req_headers request))) = Js.boolean b).
  { unfold Session_get. by rewrite Hstored. }
  rewrite Hflag. split; [reflexivity|]. split; [|apply Set_Cookie_of_json].
  intros data Hdata. cbn in Hdata. inversion Hdata; subst data.
  by rewrite renders_Scripts_App.
Qed.

(** X2: every response of the root loader is a 200 that issues the
    session cookie again, and the session it commits differs from the
    decoded one at most under the key [js]; without a [js] parameter it
    is the decoded session itself. *)
Theorem root_loader_touches_only_the_js_key (request : Request) :
  res_status (Root.loader request) = 200%Z /\
  exists committed : Session,
    Headers_get "Set-Cookie" (res_headers (Root.loader request))
      = Some (commitSession committed) /\
    (forall other, other <> "js" ->
       committed !! other
       = getSession (Headers_get "Cookie" (req_headers request)) !! other) /\
    (URLSearchParams_has "js" (URL_searchParams (req_url request)) = false ->
     committed = getSession (Headers_get "Cookie" (req_headers request))).
Proof.
  destruct (URLSearchParams_has "js" (URL_searchParams (req_url request))) eqn:Hhas.
  - rewrite (root_loader_with_override request Hhas).
    split; [reflexivity|]. eexists. split; [apply Set_Cookie_of_json|].
    split; [|discriminate].
    intros other Hother. apply Session_set_other. congruence.
  - rewrite (root_loader_without_override request Hhas).
    split; [reflexivity|]. eexists. split; [apply Set_Cookie_of_json|].
    by split.
Qed.

(** X3: the preference set by one request is the flag of the next one.
    When a request carries [js] with some value, and the next request
    carries no [js] and sends back the cookie the first response issued,
    the next page's flag is [value === "1"] and its document attaches
    the scripts exactly in that case (the codec obeying its round-trip
    law). *)
Theorem preference_survives_to_the_next_request (first next : Request) (value : string) :
  js_round_trip storage ->
  URLSearchParams_get "js" (URL_searchParams (req_url first)) = Some value ->
  URLSearchParams_has "js" (URL_searchParams (req_url next)) = false ->
  Headers_get "Cookie" (req_headers next)
    = Headers_get "Set-Cookie" (res_headers (Root.loader first)) ->
  res_body (Root.loader next)
    = Some {| Root.js := Js.boolean (String.eqb value "1") |} /\
  (forall data, res_body (Root.loader next) = Some data ->
                renders "Scripts" (RootView.App data) = String.eqb value "1").
Proof.
  intros Hcodec Hvalue Hnext Hcookie.
  assert (Hhas : URLSearchParams_has "js" (URL_searchParams (req_url first)) = true)
    by (apply URLSearchParams_has_get; eauto).
  rewrite (root_loader_with_override first Hhas), Set_Cookie_of_json, Hvalue in Hcookie.
  cbn [Js.strict_eq_string] in Hcookie.
  assert (Hstored : getSession (Headers_get "Cookie" (req_headers next)) !! "js"
                    = Some (Js.boolean (String.eqb value "1"))).
  { rewrite Hcookie. apply Hcodec. apply Session_set_lookup. }
  rewrite (root_loader_without_override next Hnext).
  unfold Session_get. rewrite Hstored. cbn [default].
  split; [reflexivity|].
  intros data Hdata. cbn in Hdata. inversion Hdata; subst data.
  by rewrite renders_Scripts_App.
Qed.

(** X4: the error pages never attach the scripts, whatever the
    preference of the visitor: neither the document of the error
    boundary nor any document the catch boundary returns contains a
    [Scripts] element; and the catch boundary returns a document exactly
    for the statuses 401 and 404. *)
Theorem error_pages_never_attach_scripts (error_message : string)
    (caught : Root.Caught) (document : element) :
  RootView.CatchBoundary caught = Returns document ->
  renders "Scripts" document = false /\
  renders "Scripts" (RootView.ErrorBoundary error_message) = false /\
  (Root.status caught = 401%Z \/ Root.status caught = 404%Z).
Proof.
  intros Hreturned.
  assert (Hheading : forall children : list element,
            existsb (renders "Scripts") [el "h1" [] children] = existsb (renders "Scripts") children).
  { intros children. cbn [existsb]. unfold el. rewrite renders_Element.
    cbn [String.eqb Ascii.eqb Bool.eqb orb]. by rewrite orb_false_r. }
  split; [|split].
  - unfold RootView.CatchBoundary in Hreturned.
    destruct (Root.status caught =? 401)%Z;
      [|destruct (Root.status caught =? 404)%Z; [|discriminate]];
      inversion Hreturned; subst document;
      (rewrite renders_Scripts_Document; [reflexivity|]);
      rewrite Hheading; reflexivity.
  - unfold RootView.ErrorBoundary. rewrite renders_Scripts_Document; [reflexivity|].
    unfold el. cbn [existsb]. rewrite !renders_Element. reflexivity.
  - unfold RootView.CatchBoundary in Hreturned.
    destruct (Z.eqb_spec (Root.status caught) 401); [by left|].
    destruct (Z.eqb_spec (Root.status caught) 404); [by right|discriminate].
Qed.

End RootPages.

(** ** More on the product route's loader, headers and action *)

Section ProductRoute.

Context {platform : WebPlatform} {sdk : Sdk}.

Lemma related_products_sublist (requested : string) (l : list (Edge Product)) :
  take 4 (filter (fun item => handle (node item) <> requested) l) `sublist_of` l.
Proof.
  transitivity (filter (fun item => handle (node item) <> requested) l).
  - apply sublist_take.
  - apply sublist_filter.
Qed.

(** X5: whatever the two reads return, the loader issues exactly these
    two, the product first and the list second, and never a checkout;
    in particular the list is asked for even when the product read
    fails. *)
Theorem loader_issues_both_reads_and_nothing_else (params : ProductsHandle.Params) :
  snd (ProductsHandle.loader params)
  = [CallProductByHandle (ProductsHandle.params_handle params); CallProducts].
Proof.
  destruct (ProductByHandle_settles (ProductsHandle.params_handle params))
    as [q1|e1] eqn:Hproduct.
  - destruct Products_settles as [q2|e2] eqn:Hlist.
    + by rewrite (loader_when_both_fulfilled params q1 q2 Hproduct Hlist).
    + by rewrite loader_when_one_rejected by (right; eauto).
  - by rewrite loader_when_one_rejected by (left; eauto).
Qed.

(** X6: the loader is fulfilled exactly when both reads are, and a
    fulfilled loader hands the catalog's product on unchanged, in a 200
    response. *)
Theorem loader_passes_the_product_through (params : ProductsHandle.Params) :
  ((exists response, fst (ProductsHandle.loader params) = Fulfilled response)
   <-> (exists q1 q2,
          ProductByHandle_settles (ProductsHandle.params_handle params) = Fulfilled q1
          /\ Products_settles = Fulfilled q2)) /\
  (forall q1 response,
     ProductByHandle_settles (ProductsHandle.params_handle params) = Fulfilled q1 ->
     fst (ProductsHandle.loader params) = Fulfilled response ->
     res_status response = 200%Z /\
     ProductsHandle.product <$> res_body response = Some (productByHandle q1)).
Proof.
  split.
  - split.
    + intros [response Hfulfilled].
      destruct (loader_fulfilled_inv params response Hfulfilled)
        as (q1 & q2 & Hq1 & Hq2 & _).
      by exists q1, q2.
    + intros (q1 & q2 & Hq1 & Hq2).
      rewrite (loader_when_both_fulfilled params q1 q2 Hq1 Hq2). by eexists.
  - intros q1 response Hproduct Hfulfilled.
    destruct (loader_fulfilled_inv params response Hfulfilled)
      as (p1 & p2 & Hp1 & _ & ->).
    rewrite Hproduct in Hp1. inversion Hp1; subst p1. by split.
Qed.

(** X7: when the handles of the catalog's list are pairwise distinct,
    so are the handles of the related products. *)
Theorem related_products_have_distinct_handles (params : ProductsHandle.Params)
    (q : ProductsQuery) (response : Response ProductsHandle.RouteData) :
  Products_settles = Fulfilled q ->
  NoDup (map (fun item => handle (node item)) (edges (products q))) ->
  fst (ProductsHandle.loader params) = Fulfilled response ->
  exists data,
    res_body response = Some data /\
    NoDup (map (fun item => handle (node item)) (ProductsHandle.relatedProducts data)).
Proof.
  intros Hlist Hdistinct Hfulfilled.
  destruct (loader_fulfilled_inv params response Hfulfilled)
    as (q1 & q2 & _ & Hq2 & ->).
  rewrite Hlist in Hq2. inversion Hq2; subst q2.
  eexists. split; [reflexivity|]. cbn [ProductsHandle.relatedProducts].
  eapply sublist_NoDup; [exact Hdistinct|].
  apply (fmap_sublist (fun item : Edge Product => handle (node item))).
  apply related_products_sublist.
Qed.

(** X8: what [headers] serves has the loader's [Cache-Control] and
    nothing else: a header of any other name is absent from it, whatever
    the loader's headers hold; and when the loader's headers have no
    [Cache-Control], the one served is the empty string. *)
Theorem headers_forward_only_cache_control (loaderHeaders : Headers) (name : string) :
  lowercase name <> "cache-control" ->
  Headers_get name (ProductsHandle.headers loaderHeaders) = None /\
  Headers_get "Cache-Control" (ProductsHandle.headers loaderHeaders)
    = Some (default EmptyString (Headers_get "Cache-Control" loaderHeaders)) /\
  (Headers_get "Cache-Control" loaderHeaders = None ->
   ProductsHandle.headers loaderHeaders = [("Cache-Control", EmptyString)]).
Proof.
  intros Hname. split; [|split].
  - unfold ProductsHandle.headers, Headers_get, header_values.
    cbn [List.filter fst].
    change (lowercase "Cache-Control") with "cache-control".
    destruct (String.eqb_spec "cache-control" (lowercase name));
      [congruence|reflexivity].
  - reflexivity.
  - intros Hmissing. unfold ProductsHandle.headers. by rewrite Hmissing.
Qed.

(** X9: whenever the action answers, the answer is a 302 redirect with
    no body and no [Cache-Control], and it leads either back to the
    request's URL or to the [webUrl] of a checkout that the remote
    service created for the submitted variant. *)
Theorem action_answers_only_with_redirects (request : Request)
    (response : Response unit) :
  fst (ProductsHandle.action request) = Fulfilled response ->
  res_status response = 302%Z /\
  res_body response = None /\
  Headers_get "Cache-Control" (res_headers response) = None /\
  (redirect_target response = Some (req_url request)
   \/ exists variantId res created,
        URLSearchParams_get "variantId" (URLSearchParams_new (req_text request))
          = Some variantId /\
        CreateCheckout_settles variantId = Fulfilled res /\
        checkoutCreate res ≫= checkout = Some created /\
        redirect_target response = Some (webUrl created)).
Proof.
  intros Hfulfilled.
  destruct (URLSearchParams_get "variantId" (URLSearchParams_new (req_text request)))
    as [variantId|] eqn:Hget.
  - destruct (String.eqb_spec variantId EmptyString) as [->|Hfilled].
    + rewrite action_without_variant in Hfulfilled by (by right).
      cbn in Hfulfilled. inversion Hfulfilled; subst response.
      do 3 (split; [reflexivity|]). left. apply redirect_target_redirect.
    + rewrite (action_with_variant request variantId Hget Hfilled) in Hfulfilled.
      cbn [fst] in Hfulfilled.
      destruct (CreateCheckout_settles variantId) as [res|e] eqn:Hsettles;
        [|discriminate].
      destruct (checkoutCreate res ≫= checkout) as [created|] eqn:Hcreated;
        inversion Hfulfilled; subst response.
      * do 3 (split; [reflexivity|]). right.
        exists variantId, res, created.
        do 3 (split; [done|]). apply redirect_target_redirect.
      * do 3 (split; [reflexivity|]). left. apply redirect_target_redirect.
  - rewrite action_without_variant in Hfulfilled by (by left).
    cbn in Hfulfilled. inversion Hfulfilled; subst response.
    do 3 (split; [reflexivity|]). left. apply redirect_target_redirect.
Qed.

(** X10: the action never reads the catalog: it issues no remote
    operation at all, or the single [CreateCheckout] for the (first)
    submitted [variantId], which is then not empty; and it is rejected
    exactly when that operation is. *)
Theorem action_calls_checkout_at_most_once (request : Request) :
  (snd (ProductsHandle.action request) = []
   \/ exists variantId,
        URLSearchParams_get "variantId" (URLSearchParams_new (req_text request))
          = Some variantId /\
        variantId <> EmptyString /\
        snd (ProductsHandle.action request) = [CallCreateCheckout variantId]) /\
  (forall e,
     fst (ProductsHandle.action request) = Rejected e
     <-> exists variantId,
           URLSearchParams_get "variantId" (URLSearchParams_new (req_text request))
             = Some variantId /\
           variantId <> EmptyString /\
           CreateCheckout_settles variantId = Rejected e).
Proof.
  destruct (URLSearchParams_get "variantId" (URLSearchParams_new (req_text request)))
    as [variantId|] eqn:Hget.
  - destruct (String.eqb_spec variantId EmptyString) as [->|Hfilled].
    + rewrite action_without_variant by (by right).
      split; [by left|]. intros e. split; [discriminate|].
      intros (v & Hv & Hne & _). congruence.
    + rewrite (action_with_variant request variantId Hget Hfilled). cbn [fst snd].
      split; [right; by exists variantId|].
      intros e. split.
      * intros Hrejected. exists variantId. split; [done|]. split; [done|].
        destruct (CreateCheckout_settles variantId) as [res|e'];
          [destruct (checkoutCreate res ≫= checkout); discriminate|congruence].
      * intros (v & Hv & _ & Hsettles). inversion Hv; subst v.
        by rewrite Hsettles.
  - rewrite action_without_variant by (by left).
    split; [by left|]. intros e. split; [discriminate|].
    intros (v & Hv & _). discriminate.
Qed.

End ProductRoute.

(** ** The product page *)

Section ProductPages.

Import React.

Context {formatting : Formatting} {S : Type}.
Implicit Types (data : ProductsHandle.RouteData) (pendingForm : option S)
  (page : element).

Lemma map_outcome_returns {A B : Type} (f : A -> outcome B) (l : list A) (bs : list B) :
  map_outcome f l = Returns bs -> Forall2 (fun a b => f a = Returns b) l bs.
Proof.
  revert bs. induction l as [|a l IH]; intros bs Hreturns; cbn in Hreturns.
  - inversion Hreturns. constructor.
  - destruct (f a) as [b|e] eqn:Hhead; cbn in Hreturns; [|discriminate].
    destruct (map_outcome f l) as [bs'|e] eqn:Htail; cbn in Hreturns; [|discriminate].
    inversion Hreturns. constructor; [exact Hhead|by apply IH].
Qed.

Lemma related_card_returns (relatedProduct : Edge Product) (card : element) :
  ProductView.related_card relatedProduct = Returns card ->
  exists image price,
    head (edges (images (node relatedProduct))) = Some (mkEdge image) /\
    card = ProductView.card_markup (node relatedProduct) image price.
Proof.
  unfold ProductView.related_card. intros Hreturns.
  destruct (edges (images (node relatedProduct))) as [|[image] more];
    cbn in Hreturns; [discriminate|].
  destruct (formatMoney_Number _) as [price|e]; cbn in Hreturns; [|discriminate].
  inversion Hreturns. by exists image, price.
Qed.

(** What the cards of a rendered page contain, read off the related
    products they were made from. *)
Lemma cards_read (related : list (Edge Product)) (cards : list element) :
  map_outcome ProductView.related_card related = Returns cards ->
  flat_map link_targets cards
    = map (fun item => "/products/" +:+ handle (node item)) related /\
  flat_map keys cards = map (fun item => handle (node item)) related /\
  flat_map input_fields cards = [] /\
  flat_map (flags "fieldset" "disabled") cards = [] /\
  existsb (renders "svg") cards = false.
Proof.
  intros Hcards. apply map_outcome_returns in Hcards.
  induction Hcards as [|item card related cards Hcard _ IH]; [by repeat split|].
  destruct IH as (IHlinks & IHkeys & IHinputs & IHflags & IHsvg).
  destruct (related_card_returns item card Hcard) as (image & price & _ & ->).
  cbn [flat_map map existsb].
  rewrite link_targets_card, keys_card, input_fields_card, disabled_card,
    renders_svg_card.
  rewrite IHlinks, IHkeys, IHinputs, IHflags, IHsvg. by repeat split.
Qed.

Lemma ProductPage_not_found data pendingForm :
  ProductsHandle.product data = None ->
  ProductView.ProductPage data pendingForm
  = Returns (el "div" [] [Text "Product not found"]).
Proof. intros Hnone. unfold ProductView.ProductPage. by rewrite Hnone. Qed.

Lemma ProductPage_returns data pendingForm (product : Product) page :
  ProductsHandle.product data = Some product ->
  ProductView.ProductPage data pendingForm = Returns page ->
  exists first_variant image updated pay cards,
    head (edges (variants product)) = Some (mkEdge first_variant) /\
    head (edges (images product)) = Some (mkEdge image) /\
    format_dd_MMM_yyyy (updatedAt product) = Returns updated /\
    formatMoney_Number (amount (minVariantPrice (priceRange product))) = Returns pay /\
    map_outcome ProductView.related_card (ProductsHandle.relatedProducts data)
      = Returns cards /\
    page = ProductView.page_markup product (id first_variant) image updated pay
             cards pendingForm.
Proof.
  intros Hproduct Hreturns. unfold ProductView.ProductPage in Hreturns.
  rewrite Hproduct in Hreturns.
  destruct (edges (variants product)) as [|[first_variant] more_variants];
    cbn in Hreturns; [discriminate|].
  destruct (edges (images product)) as [|[image] more_images];
    cbn in Hreturns; [discriminate|].
  destruct (format_dd_MMM_yyyy (updatedAt product)) as [updated|e] eqn:Hdate;
    cbn in Hreturns; [|discriminate].
  destruct (formatMoney_Number _) as [pay|e] eqn:Hpay; cbn in Hreturns; [|discriminate].
  destruct (map_outcome _ _) as [cards|e] eqn:Hcards; cbn in Hreturns; [|discriminate].
  inversion Hreturns. by exists first_variant, image, updated, pay, cards.
Qed.


Lemma page_links_and_keys data pendingForm (product : Product) page :
  ProductsHandle.product data = Some product ->
  ProductView.ProductPage data pendingForm = Returns page ->
  link_targets page
    = "/" :: map (fun item => "/products/" +:+ handle (node item))
                 (ProductsHandle.relatedProducts data) /\
  keys page
    = map (fun item => handle (node item)) (ProductsHandle.relatedProducts data).
Proof.
  intros Hproduct Hreturns.
  destruct (ProductPage_returns data pendingForm product page Hproduct Hreturns)
    as (first_variant & image & updated & pay & cards & _ & _ & _ & _ & Hcards & ->).
  rewrite link_targets_page, keys_page.
  destruct (cards_read _ _ Hcards) as (-> & -> & _). by split.
Qed.

(** X11: the title of the page follows the catalog's answer: "Product
    not found" when the catalog has no product for the handle, the
    product's own title otherwise. *)
Theorem page_title_follows_the_catalog {sdk : Sdk} (params : ProductsHandle.Params)
    (q1 : ProductByHandleQuery) (response : Response ProductsHandle.RouteData) :
  ProductByHandle_settles (ProductsHandle.params_handle params) = Fulfilled q1 ->
  fst (ProductsHandle.loader params) = Fulfilled response ->
  exists data,
    res_body response = Some data /\
    (productByHandle q1 = None ->
     ProductView.meta data = {| ProductView.meta_title := "Product not found" |}) /\
    (forall product, productByHandle q1 = Some product ->
     ProductView.meta data = {| ProductView.meta_title := title product |}).
Proof.
  intros Hproduct Hfulfilled.
  destruct (loader_fulfilled_inv params response Hfulfilled)
    as (p1 & p2 & Hp1 & _ & ->).
  rewrite Hproduct in Hp1. inversion Hp1; subst p1.
  eexists. split; [reflexivity|]. unfold ProductView.meta.
  cbn [ProductsHandle.product].
  split; [by intros ->|]. by intros product ->.
Qed.

(** X12: for a handle the catalog does not know, the loader still puts
    related products in its data, but the page shows none of them: it is
    the bare "Product not found" element, with no link and no form
    field, whatever the formatting helpers do. *)
Theorem not_found_page_shows_no_suggestions {sdk : Sdk}
    (params : ProductsHandle.Params) (q : ProductsQuery) pendingForm :
  ProductByHandle_settles (ProductsHandle.params_handle params)
    = Fulfilled {| productByHandle := None |} ->
  Products_settles = Fulfilled q ->
  exists response data,
    fst (ProductsHandle.loader params) = Fulfilled response /\
    res_body response = Some data /\
    ProductsHandle.relatedProducts data
      = take 4 (filter (fun item => handle (node item)
                                    <> ProductsHandle.params_handle params)
                       (edges (products q))) /\
    ProductView.ProductPage data pendingForm
      = Returns (el "div" [] [Text "Product not found"]) /\
    forall page, ProductView.ProductPage data pendingForm = Returns page ->
                 link_targets page = [] /\ input_fields page = [] /\ keys page = [].
Proof.
  intros Hproduct Hlist.
  rewrite (loader_when_both_fulfilled params _ q Hproduct Hlist).
  do 2 eexists. split; [reflexivity|]. split; [reflexivity|].
  split; [reflexivity|].
  rewrite ProductPage_not_found by reflexivity.
  split; [reflexivity|]. intros page Hpage. inversion Hpage. by repeat split.
Qed.

(** X13: rendering the page of a product that has no variant, or no
    image, throws a [TypeError], before any formatting helper is
    called. *)
Theorem page_throws_without_variant_or_image data pendingForm (product : Product) :
  ProductsHandle.product data = Some product ->
  edges (variants product) = [] \/ edges (images product) = [] ->
  ProductView.ProductPage data pendingForm = Throws TypeError.
Proof.
  intros Hproduct Hmissing. unfold ProductView.ProductPage. rewrite Hproduct.
  destruct (edges (variants product)) as [|first_variant more]; [reflexivity|].
  destruct Hmissing as [Hvariants|Himages]; [discriminate|].
  rewrite Himages. reflexivity.
Qed.

Lemma related_card_cases (item : Edge Product) :
  (exists r, formatMoney_Number (amount (minVariantPrice (priceRange (node item))))
             = Returns r) ->
  (edges (images (node item)) = [] /\
   ProductView.related_card item = Throws TypeError)
  \/ (edges (images (node item)) <> [] /\
      exists card, ProductView.related_card item = Returns card).
Proof.
  intros [price Hprice]. unfold ProductView.related_card.
  destruct (edges (images (node item))) as [|[image] more].
  - by left.
  - right. split; [done|]. cbn. rewrite Hprice. by eexists.
Qed.

Lemma cards_return_or_throw (related : list (Edge Product)) :
  Forall (fun item =>
            exists r, formatMoney_Number
                        (amount (minVariantPrice (priceRange (node item))))
                      = Returns r) related ->
  (Forall (fun item => edges (images (node item)) <> []) related /\
   exists cards, map_outcome ProductView.related_card related = Returns cards)
  \/ (Exists (fun item => edges (images (node item)) = []) related /\
      map_outcome ProductView.related_card related = Throws TypeError).
Proof.
  induction 1 as [|item related Hprice _ IH].
  - left. split; [constructor|]. by exists [].
  - cbn [map_outcome].
    destruct (related_card_cases item Hprice) as [[Hnone ->]|[Hsome [card ->]]].
    + right. split; [apply Exists_cons; by left|reflexivity].
    + cbn. destruct IH as [[Hall [cards ->]]|[Hmissing ->]].
      * left. split; [by constructor|by eexists].
      * right. split; [apply Exists_cons; by right|reflexivity].
Qed.

(** X14: when the formatting helpers return on what this page passes
    them (the product's timestamp, the product's price and the price of
    each related product), the page of the product is rendered exactly
    when the product has a variant and an image and every related
    product has an image; in every other case rendering throws a
    [TypeError]. *)
Theorem page_renders_exactly_for_complete_products data pendingForm (product : Product) :
  (exists r, format_dd_MMM_yyyy (updatedAt product) = Returns r) ->
  (exists r, formatMoney_Number (amount (minVariantPrice (priceRange product)))
             = Returns r) ->
  Forall (fun item =>
            exists r, formatMoney_Number
                        (amount (minVariantPrice (priceRange (node item))))
                      = Returns r)
         (ProductsHandle.relatedProducts data) ->
  ProductsHandle.product data = Some product ->
  ((exists page, ProductView.ProductPage data pendingForm = Returns page)
   <-> (edges (variants product) <> [] /\ edges (images product) <> [] /\
        Forall (fun item => edges (images (node item)) <> [])
               (ProductsHandle.relatedProducts data))) /\
  ((exists page, ProductView.ProductPage data pendingForm = Returns page)
   \/ ProductView.ProductPage data pendingForm = Throws TypeError).
Proof.
  intros [updated Hdate] [pay Hpay] Hprices Hproduct.
  unfold ProductView.ProductPage. rewrite Hproduct.
  destruct (edges (variants product)) as [|[first_variant] more_variants].
  { cbn. split; [|by right]. split; [by intros [page ?]|by intros [? _]]. }
  destruct (edges (images product)) as [|[image] more_images].
  { cbn. split; [|by right]. split; [by intros [page ?]|by intros (_ & ? & _)]. }
  cbn. rewrite Hdate. cbn. rewrite Hpay. cbn.
  destruct (cards_return_or_throw (ProductsHandle.relatedProducts data) Hprices)
    as [[Hall [cards ->]]|[Hsome ->]]; cbn.
  - split; [|left; by eexists]. split; [by intros _|intros _; by eexists].
  - split; [|by right]. split; [by intros [page ?]|].
    intros (_ & _ & Hall). exfalso.
    apply Exists_exists in Hsome as (item & Hin & Hnone).
    rewrite Forall_forall in Hall. by apply (Hall item).
Qed.

(** X15: a rendered product page has one form field: the hidden
    [variantId], whose value is the id of the product's first variant. *)
Theorem form_submits_the_first_variant data pendingForm (product : Product) page :
  ProductsHandle.product data = Some product ->
  ProductView.ProductPage data pendingForm = Returns page ->
  exists first_variant,
    head (edges (variants product)) = Some (mkEdge first_variant) /\
    input_fields page = [("variantId", id first_variant)].
Proof.
  intros Hproduct Hreturns.
  destruct (ProductPage_returns data pendingForm product page Hproduct Hreturns)
    as (first_variant & image & updated & pay & cards & Hvariant & _ & _ & _ & Hcards & ->).
  exists first_variant. split; [exact Hvariant|].
  rewrite input_fields_page.
  destruct (cards_read _ _ Hcards) as (_ & _ & -> & _). reflexivity.
Qed.

(** X16: buying from a rendered product page.  When the body of the
    submission decodes to the fields of the page's form, the action
    issues [CreateCheckout] for the id of the product's first variant
    and nothing else; if that id is empty it issues nothing and
    redirects back. *)
Theorem buying_from_the_page_checks_out_the_first_variant
    {platform : WebPlatform} {sdk : Sdk}
    data pendingForm (product : Product) page (request : Request) :
  ProductsHandle.product data = Some product ->
  ProductView.ProductPage data pendingForm = Returns page ->
  URLSearchParams_new (req_text request) = input_fields page ->
  exists first_variant,
    head (edges (variants product)) = Some (mkEdge first_variant) /\
    (id first_variant <> EmptyString ->
     snd (ProductsHandle.action request) = [CallCreateCheckout (id first_variant)]) /\
    (id first_variant = EmptyString ->
     ProductsHandle.action request = (Fulfilled (redirect (req_url request)), [])).
Proof.
  intros Hproduct Hreturns Hbody.
  destruct (ProductPage_returns data pendingForm product page Hproduct Hreturns)
    as (first_variant & image & updated & pay & cards & Hvariant & _ & _ & _ & Hcards & ->).
  rewrite input_fields_page in Hbody.
  destruct (cards_read _ _ Hcards) as (_ & _ & Hinputs & _). rewrite Hinputs in Hbody.
  assert (Hget : URLSearchParams_get "variantId" (URLSearchParams_new (req_text request))
                 = Some (id first_variant)) by (by rewrite Hbody).
  exists first_variant. split; [exact Hvariant|]. split.
  - intros Hfilled. by rewrite (action_with_variant request _ Hget Hfilled).
  - intros Hempty. apply action_without_variant. right. by rewrite Hget, Hempty.
Qed.

(** X17: the links of a rendered product page are the link to the
    front page followed by one link per related product, in their order,
    each to [/products/] followed by that product's handle; and the keys
    of the cards are those handles. *)
Theorem related_links_lead_to_the_related_products data pendingForm
    (product : Product) page :
  ProductsHandle.product data = Some product ->
  ProductView.ProductPage data pendingForm = Returns page ->
  link_targets page
    = "/" :: map (fun item => "/products/" +:+ handle (node item))
                 (ProductsHandle.relatedProducts data) /\
  keys page
    = map (fun item => handle (node item)) (ProductsHandle.relatedProducts data).
Proof. apply page_links_and_keys. Qed.


(** X19: on a rendered product page the form's fieldset is disabled,
    and the spinner is drawn, exactly while a submission is pending. *)
Theorem form_is_disabled_while_submitting data pendingForm (product : Product) page :
  ProductsHandle.product data = Some product ->
  ProductView.ProductPage data pendingForm = Returns page ->
  flags "fieldset" "disabled" page = [bool_decide (is_Some pendingForm)] /\
  renders "svg" page = bool_decide (is_Some pendingForm).
Proof.
  intros Hproduct Hreturns.
  destruct (ProductPage_returns data pendingForm product page Hproduct Hreturns)
    as (first_variant & image & updated & pay & cards & _ & _ & _ & _ & Hcards & ->).
  rewrite disabled_page, renders_svg_page.
  destruct (cards_read _ _ Hcards) as (_ & _ & _ & -> & ->).
  by rewrite orb_false_r.
Qed.

End ProductPages.

(** ** The further theorems at concrete requests and pages *)

Lemma stored_preference_witness :
  URLSearchParams_has "js"
    (@URL_searchParams Sample.platform
       (req_url (Sample.get_request "/products/cap" (Some "__session=js:1")))) = false /\
  @getSession Sample.storage
    (Headers_get "Cookie"
       (req_headers (Sample.get_request "/products/cap" (Some "__session=js:1"))))
    !! "js" = Some (Js.boolean true) /\
  res_body (@Root.loader Sample.platform Sample.storage
              (Sample.get_request "/products/cap" (Some "__session=js:1")))
    = Some {| Root.js := Js.boolean true |}.
Proof.
  split; [reflexivity|]. split; [reflexivity|].
  exact (proj1 (@stored_preference_is_honoured Sample.platform Sample.storage
                  SamplePages.production
                  (Sample.get_request "/products/cap" (Some "__session=js:1")) true
                  eq_refl eq_refl)).
Defined.

Lemma preference_survives_witness :
  js_round_trip Sample.storage /\
  URLSearchParams_get "js"
    (@URL_searchParams Sample.platform (req_url Sample.visit_js_on)) = Some "1" /\
  URLSearchParams_has "js"
    (@URL_searchParams Sample.platform
       (req_url (Sample.get_request "/products/hoodie" (Some "__session=js:1")))) = false /\
  Headers_get "Cookie"
    (req_headers (Sample.get_request "/products/hoodie" (Some "__session=js:1")))
    = Headers_get "Set-Cookie"
        (res_headers (@Root.loader Sample.platform Sample.storage Sample.visit_js_on)) /\
  res_body (@Root.loader Sample.platform Sample.storage
              (Sample.get_request "/products/hoodie" (Some "__session=js:1")))
    = Some {| Root.js := Js.boolean true |}.
Proof.
  split; [exact sample_codec_round_trip|].
  split; [reflexivity|]. split; [reflexivity|]. split; [reflexivity|].
  exact (proj1 (@preference_survives_to_the_next_request Sample.platform
                  Sample.storage SamplePages.production Sample.visit_js_on
                  (Sample.get_request "/products/hoodie" (Some "__session=js:1")) "1"
                  sample_codec_round_trip eq_refl eq_refl eq_refl)).
Defined.

Lemma error_pages_witness :
  exists document,
    @RootView.CatchBoundary SamplePages.development (Root.mkCaught 404 "Not Found")
      = React.Returns document /\
    React.renders "Scripts" document = false /\
    React.renders "LiveReload" document = true.
Proof.
  eexists. split; [reflexivity|].
  split; [|reflexivity].
  exact (proj1 (@error_pages_never_attach_scripts SamplePages.development
                  "boom" (Root.mkCaught 404 "Not Found") _ eq_refl)).
Defined.

Lemma product_passes_through_witness :
  exists q1 response,
    @ProductByHandle_settles Sample.shop_sdk "classic-tee" = Fulfilled q1 /\
    fst (@ProductsHandle.loader Sample.shop_sdk Sample.classic_tee) = Fulfilled response /\
    ProductsHandle.product <$> res_body response = Some (Some (Sample.item "classic-tee")).
Proof.
  do 2 eexists. split; [reflexivity|]. split; [reflexivity|].
  exact (proj2 (proj2 (@loader_passes_the_product_through Sample.shop_sdk
                         Sample.classic_tee) _ _ eq_refl eq_refl)).
Defined.

Lemma distinct_handles_witness :
  exists q response,
    @Products_settles Sample.shop_sdk = Fulfilled q /\
    NoDup (map (fun item => handle (node item)) (edges (products q))) /\
    fst (@ProductsHandle.loader Sample.shop_sdk Sample.classic_tee) = Fulfilled response /\
    exists data,
      res_body response = Some data /\
      NoDup (map (fun item => handle (node item)) (ProductsHandle.relatedProducts data)).
Proof.
  assert (Hdistinct : NoDup (map (fun item : Edge Product => handle (node item))
                                 (map mkEdge Sample.shop)))
    by (apply (bool_decide_unpack _); vm_compute; reflexivity).
  do 2 eexists. split; [reflexivity|]. split; [exact Hdistinct|].
  split; [reflexivity|].
  exact (@related_products_have_distinct_handles Sample.shop_sdk Sample.classic_tee
           _ _ eq_refl Hdistinct eq_refl).
Defined.

Lemma headers_forward_witness :
  lowercase "Set-Cookie" <> "cache-control" /\
  Headers_get "Set-Cookie"
    (ProductsHandle.headers [("Set-Cookie", "__session=js:1"); ("cache-control", "no-store")])
    = None /\
  Headers_get "Cache-Control"
    (ProductsHandle.headers [("Set-Cookie", "__session=js:1"); ("cache-control", "no-store")])
    = Some "no-store".
Proof.
  assert (Hname : lowercase "Set-Cookie" <> "cache-control") by discriminate.
  split; [exact Hname|].
  destruct (headers_forward_only_cache_control
              [("Set-Cookie", "__session=js:1"); ("cache-control", "no-store")]
              "Set-Cookie" Hname) as (Hnone & Hcache & _).
  split; [exact Hnone|exact Hcache].
Defined.

Lemma action_redirects_witness :
  exists response,
    fst (@ProductsHandle.action Sample.platform Sample.shop_sdk Sample.buy_cap)
      = Fulfilled response /\
    res_status response = 302%Z /\
    Headers_get "Cache-Control" (res_headers response) = None.
Proof.
  eexists. split; [reflexivity|].
  destruct (@action_answers_only_with_redirects Sample.platform Sample.shop_sdk
              Sample.buy_cap _ eq_refl) as (Hstatus & _ & Hcache & _).
  split; [exact Hstatus|exact Hcache].
Defined.

Lemma page_title_witness :
  exists q1 response,
    @ProductByHandle_settles Sample.shop_sdk "ghost-product" = Fulfilled q1 /\
    fst (@ProductsHandle.loader Sample.shop_sdk Sample.ghost_product) = Fulfilled response /\
    exists data,
      res_body response = Some data /\
      ProductView.meta data = {| ProductView.meta_title := "Product not found" |}.
Proof.
  do 2 eexists. split; [reflexivity|]. split; [reflexivity|].
  destruct (@page_title_follows_the_catalog Sample.shop_sdk Sample.ghost_product
              _ _ eq_refl eq_refl) as (data & Hbody & Hnone & _).
  exists data. split; [exact Hbody|]. exact (Hnone eq_refl).
Defined.

Lemma not_found_page_witness :
  exists q,
    @ProductByHandle_settles Sample.shop_sdk "ghost-product"
      = Fulfilled {| productByHandle := None |} /\
    @Products_settles Sample.shop_sdk = Fulfilled q /\
    exists response data,
      fst (@ProductsHandle.loader Sample.shop_sdk Sample.ghost_product)
        = Fulfilled response /\
      res_body response = Some data /\
      length (ProductsHandle.relatedProducts data) = 4 /\
      @ProductView.ProductPage SamplePages.no_dates unit data None
        = React.Returns (React.el "div" [] [React.Text "Product not found"]).
Proof.
  eexists. split; [reflexivity|]. split; [reflexivity|].
  destruct (@not_found_page_shows_no_suggestions SamplePages.no_dates unit
              Sample.shop_sdk Sample.ghost_product _ None eq_refl eq_refl)
    as (response & data & Hfulfilled & Hbody & Hrelated & Hpage & _).
  exists response, data. split; [exact Hfulfilled|]. split; [exact Hbody|].
  split; [by rewrite Hrelated|exact Hpage].
Defined.

Lemma page_throws_witness :
  ProductsHandle.product SamplePages.cap_without_variants
    = Some (SamplePages.without_variants (Sample.item "cap")) /\
  (edges (variants (SamplePages.without_variants (Sample.item "cap"))) = []
   \/ edges (images (SamplePages.without_variants (Sample.item "cap"))) = []) /\
  @ProductView.ProductPage SamplePages.formatting unit
    SamplePages.cap_without_variants None
  = React.Throws React.TypeError.
Proof.
  split; [reflexivity|]. split; [left; reflexivity|].
  exact (@page_throws_without_variant_or_image SamplePages.formatting unit
           SamplePages.cap_without_variants None
           (SamplePages.without_variants (Sample.item "cap"))
           eq_refl (or_introl eq_refl)).
Defined.

Lemma page_renders_witness :
  @format_dd_MMM_yyyy SamplePages.checked_dates "garbage"
    = React.Throws (React.Raised "Invalid time value") /\
  (exists r, @format_dd_MMM_yyyy SamplePages.checked_dates
               (updatedAt (Sample.item "cap")) = React.Returns r) /\
  (exists r, @formatMoney_Number SamplePages.checked_dates
               (amount (minVariantPrice (priceRange (Sample.item "cap"))))
             = React.Returns r) /\
  Forall (fun item =>
            exists r, @formatMoney_Number SamplePages.checked_dates
                        (amount (minVariantPrice (priceRange (node item))))
                      = React.Returns r)
         (ProductsHandle.relatedProducts SamplePages.cap_page) /\
  ProductsHandle.product SamplePages.cap_page = Some (Sample.item "cap") /\
  (edges (variants (Sample.item "cap")) <> [] /\
   edges (images (Sample.item "cap")) <> [] /\
   Forall (fun item => edges (images (node item)) <> [])
          (ProductsHandle.relatedProducts SamplePages.cap_page)) /\
  exists page,
    @ProductView.ProductPage SamplePages.checked_dates unit SamplePages.cap_page None
    = React.Returns page.
Proof.
  assert (Hdate : exists r, @format_dd_MMM_yyyy SamplePages.checked_dates
                              (updatedAt (Sample.item "cap")) = React.Returns r)
    by (eexists; reflexivity).
  assert (Hpay : exists r, @formatMoney_Number SamplePages.checked_dates
                             (amount (minVariantPrice (priceRange (Sample.item "cap"))))
                           = React.Returns r)
    by (eexists; reflexivity).
  assert (Hprices : Forall (fun item =>
            exists r, @formatMoney_Number SamplePages.checked_dates
                        (amount (minVariantPrice (priceRange (node item))))
                      = React.Returns r)
         (ProductsHandle.relatedProducts SamplePages.cap_page))
    by (apply Forall_forall; intros item _; eexists; reflexivity).
  assert (Hcomplete :
            edges (variants (Sample.item "cap")) <> [] /\
            edges (images (Sample.item "cap")) <> [] /\
            Forall (fun item => edges (images (node item)) <> [])
                   (ProductsHandle.relatedProducts SamplePages.cap_page))
    by (split; [discriminate|]; split; [discriminate|];
        repeat constructor; discriminate).
  split; [reflexivity|]. split; [exact Hdate|]. split; [exact Hpay|].
  split; [exact Hprices|]. split; [reflexivity|]. split; [exact Hcomplete|].
  exact (proj2 (proj1 (@page_renders_exactly_for_complete_products
                         SamplePages.checked_dates unit SamplePages.cap_page None
                         (Sample.item "cap") Hdate Hpay Hprices eq_refl))
           Hcomplete).
Defined.

Lemma form_submits_witness :
  exists page,
    ProductsHandle.product SamplePages.cap_page = Some (Sample.item "cap") /\
    @ProductView.ProductPage SamplePages.formatting unit SamplePages.cap_page None
      = React.Returns page /\
    React.input_fields page = [("variantId", "variant-cap")].
Proof.
  eexists. split; [reflexivity|]. split; [reflexivity|].
  destruct (@form_submits_the_first_variant SamplePages.formatting unit
              SamplePages.cap_page None (Sample.item "cap") _ eq_refl eq_refl)
    as (first_variant & Hfirst & Hfields).
  inversion Hfirst; subst first_variant. exact Hfields.
Defined.

Lemma buying_witness :
  exists page,
    ProductsHandle.product SamplePages.cap_page = Some (Sample.item "cap") /\
    @ProductView.ProductPage SamplePages.formatting unit SamplePages.cap_page None
      = React.Returns page /\
    @URLSearchParams_new Sample.platform (req_text Sample.buy_cap)
      = React.input_fields page /\
    snd (@ProductsHandle.action Sample.platform Sample.shop_sdk Sample.buy_cap)
      = [CallCreateCheckout "variant-cap"].
Proof.
  eexists. split; [reflexivity|]. split; [reflexivity|].
  split; [vm_compute; reflexivity|].
  destruct (@buying_from_the_page_checks_out_the_first_variant
              SamplePages.formatting unit Sample.platform Sample.shop_sdk
              SamplePages.cap_page None (Sample.item "cap") _ Sample.buy_cap
              eq_refl eq_refl eq_refl)
    as (first_variant & Hfirst & Hcall & _).
  inversion Hfirst; subst first_variant. apply Hcall. discriminate.
Defined.

Lemma related_links_witness :
  exists page,
    ProductsHandle.product SamplePages.cap_page = Some (Sample.item "cap") /\
    @ProductView.ProductPage SamplePages.formatting unit SamplePages.cap_page None
      = React.Returns page /\
    React.link_targets page
      = ["/"; "/products/classic-tee"; "/products/hoodie"; "/products/socks";
         "/products/mug"].
Proof.
  eexists. split; [reflexivity|]. split; [reflexivity|].
  exact (proj1 (@related_links_lead_to_the_related_products SamplePages.formatting
                  unit SamplePages.cap_page None (Sample.item "cap") _
                  eq_refl eq_refl)).
Defined.


Lemma disabled_while_submitting_witness :
  exists page,
    ProductsHandle.product SamplePages.cap_page = Some (Sample.item "cap") /\
    @ProductView.ProductPage SamplePages.formatting unit SamplePages.cap_page (Some tt)
      = React.Returns page /\
    React.flags "fieldset" "disabled" page = [true] /\
    React.renders "svg" page = true.
Proof.
  eexists. split; [reflexivity|]. split; [reflexivity|].
  exact (@form_is_disabled_while_submitting SamplePages.formatting unit
           SamplePages.cap_page (Some tt) (Sample.item "cap") _ eq_refl eq_refl).
Defined.
